(** * The Telegram presentation layer: login, message routing and the session

    A shallow embedding of [internal/presentation/telegram]: the construction
    of [Presentation] with its command table, [login], [routeMessage] and
    [Run].  Go strings are byte strings ([string] of [ascii]); the handlers
    and the transport library act on an abstract outside world; every log
    entry the code sends and every handler it calls is recorded, in order,
    in a trace. *)

From Stdlib Require Import ZArith String Ascii List Bool Lia.
From stdpp Require Import base option list gmap strings.

Local Open Scope string_scope.
Local Open Scope Z_scope.

(** ** Go byte strings *)

Module gostring.

(** [s[i]]: the byte at index [i], [None] where Go panics. *)
Definition index (s : string) (i : nat) : option ascii := String.get i s.

(** [s[i:]] for [i <= len(s)]. *)
Fixpoint slice_from (i : nat) (s : string) : string :=
  match i, s with
  | O, _ => s
  | S i', String _ s' => slice_from i' s'
  | S _, EmptyString => EmptyString
  end.

(** [s[:i]] for [i <= len(s)]. *)
Fixpoint slice_to (i : nat) (s : string) : string :=
  match i, s with
  | O, _ => EmptyString
  | S i', String c s' => String c (slice_to i' s')
  | S _, EmptyString => EmptyString
  end.

Definition byte (c : ascii) : Z := Z.of_N (N_of_ascii c).

End gostring.

(** ** unicode/utf8 and unicode.IsSpace *)

Module utf8.

Definition rune := Z.

Definition RuneError : rune := 65533.   (* U+FFFD *)
Definition RuneSelf : Z := 128.

Definition locb : Z := 128.             (* 0b10000000 *)
Definition hicb : Z := 191.             (* 0b10111111 *)

Definition maskx : Z := 63.
Definition mask2 : Z := 31.
Definition mask3 : Z := 15.
Definition mask4 : Z := 7.

(** The table [first] together with [acceptRanges]: for a leading byte,
    the length of the sequence and the range allowed for the second byte;
    [None] for the bytes that never start a sequence of two or more. *)
Definition first (s0 : Z) : option (nat * (Z * Z)) :=
  if (194 <=? s0) && (s0 <=? 223) then Some (2%nat, (locb, hicb))
  else if s0 =? 224 then Some (3%nat, (160, hicb))
  else if (225 <=? s0) && (s0 <=? 236) then Some (3%nat, (locb, hicb))
  else if s0 =? 237 then Some (3%nat, (locb, 159))
  else if (238 <=? s0) && (s0 <=? 239) then Some (3%nat, (locb, hicb))
  else if s0 =? 240 then Some (4%nat, (144, hicb))
  else if (241 <=? s0) && (s0 <=? 243) then Some (4%nat, (locb, hicb))
  else if s0 =? 244 then Some (4%nat, (locb, 143))
  else None.

Definition cont (b : Z) : bool := (locb <=? b) && (b <=? hicb).

(** [utf8.DecodeRuneInString]: the first rune of [s] and its width in
    bytes; an ill-formed or truncated sequence is [RuneError] of width 1,
    the empty string [RuneError] of width 0. *)
Definition DecodeRuneInString (s : string) : rune * nat :=
  match s with
  | EmptyString => (RuneError, 0%nat)
  | String c0 s1 =>
      let s0 := gostring.byte c0 in
      if s0 <? RuneSelf then (s0, 1%nat)
      else
        match first s0 with
        | None => (RuneError, 1%nat)
        | Some (sz, (lo, hi)) =>
            if (String.length s <? sz)%nat then (RuneError, 1%nat)
            else
              match s1 with
              | EmptyString => (RuneError, 1%nat)
              | String c1 s2 =>
                  let b1 := gostring.byte c1 in
                  if (b1 <? lo) || (hi <? b1) then (RuneError, 1%nat)
                  else if (sz <=? 2)%nat then
                    (Z.lor (Z.shiftl (Z.land s0 mask2) 6) (Z.land b1 maskx), 2%nat)
                  else
                    match s2 with
                    | EmptyString => (RuneError, 1%nat)
                    | String c2 s3 =>
                        let b2 := gostring.byte c2 in
                        if negb (cont b2) then (RuneError, 1%nat)
                        else if (sz <=? 3)%nat then
                          (Z.lor (Z.lor (Z.shiftl (Z.land s0 mask3) 12)
                                        (Z.shiftl (Z.land b1 maskx) 6))
                                 (Z.land b2 maskx), 3%nat)
                        else
                          match s3 with
                          | EmptyString => (RuneError, 1%nat)
                          | String c3 _ =>
                              let b3 := gostring.byte c3 in
                              if negb (cont b3) then (RuneError, 1%nat)
                              else
                                (Z.lor (Z.lor (Z.lor (Z.shiftl (Z.land s0 mask4) 18)
                                                     (Z.shiftl (Z.land b1 maskx) 12))
                                              (Z.shiftl (Z.land b2 maskx) 6))
                                       (Z.land b3 maskx), 4%nat)
                          end
                    end
              end
        end
  end.

(** What [for i, r := range s] goes through: each rune with the bytes
    that encode it.  Every step consumes at least one byte, so the length
    of [s] is fuel enough. *)
Fixpoint range_fuel (fuel : nat) (s : string) : list (rune * string) :=
  match fuel, s with
  | S fuel', String _ _ =>
      let '(r, size) := DecodeRuneInString s in
      (r, gostring.slice_to size s) :: range_fuel fuel' (gostring.slice_from size s)
  | _, _ => []
  end.

Definition range (s : string) : list (rune * string) :=
  range_fuel (String.length s) s.

End utf8.

Module unicode.

Definition MaxLatin1 : Z := 255.

(** The ranges of the [White_Space] table above Latin-1. *)
Definition White_Space_above_Latin1 (r : Z) : bool :=
  (r =? 5760)                              (* U+1680 *)
  || ((8192 <=? r) && (r <=? 8202))        (* U+2000 .. U+200A *)
  || ((8232 <=? r) && (r <=? 8233))        (* U+2028, U+2029 *)
  || (r =? 8239)                           (* U+202F *)
  || (r =? 8287)                           (* U+205F *)
  || (r =? 12288).                         (* U+3000 *)

Definition IsSpace (r : utf8.rune) : bool :=
  if r <=? MaxLatin1 then
    (r =? 9) || (r =? 10) || (r =? 11) || (r =? 12) || (r =? 13)
    || (r =? 32) || (r =? 133) || (r =? 160)
  else White_Space_above_Latin1 r.

End unicode.

(** ** strings.Fields *)

Module strings.

(** The loop of [strings.FieldsFunc]: [cur] is the field being read
    ([start >= 0] in the Go code), closed by the next rune that
    satisfies [f] or by the end of the string. *)
Fixpoint fieldsLoop (f : utf8.rune -> bool) (rs : list (utf8.rune * string))
         (cur : option string) : list string :=
  match rs with
  | [] => match cur with Some t => [t] | None => [] end
  | (r, bytes) :: rs' =>
      if f r then
        match cur with
        | Some t => t :: fieldsLoop f rs' None
        | None => fieldsLoop f rs' None
        end
      else
        fieldsLoop f rs' (Some (match cur with Some t => t +:+ bytes | None => bytes end))
  end.

Definition FieldsFunc (s : string) (f : utf8.rune -> bool) : list string :=
  fieldsLoop f (utf8.range s) None.

(** [strings.Fields] splits around runs of white space as
    [unicode.IsSpace] defines it; its fast path for strings of ASCII bytes
    only computes the same fields without decoding. *)
Definition Fields (s : string) : list string := FieldsFunc s unicode.IsSpace.

End strings.

(** ** Values of the Go runtime and of the transport library *)

(** Go's [error] values as this package makes and joins them, and as the
    transport wraps them.  (The sentinel [context.Canceled] is not among
    them.) *)
#[warnings="-register-all"]
Inductive error : Type :=
| errorString (text : string)
| joinError (errs : list error)
| wrapError (msg : string) (cause : error).

Module errors.

Definition New (text : string) : error := errorString text.

(** [errors.Join] drops the nil errors and is nil when none is left. *)
Definition Join (errs : list (option error)) : option error :=
  match omap id errs with
  | [] => None
  | es => Some (joinError es)
  end.

(** [errors.Wrap(err, msg)] of the transport's errors package: an error
    that reads [msg: err] and keeps [err] as its cause. *)
Definition Wrap (err : error) (msg : string) : error := wrapError msg err.

End errors.

Module context.
(** A [context.Context] is an opaque handle. *)
Definition Context := N.
Definition Background : Context := 0%N.
End context.

Module time.

Definition Time := Z.        (* nanoseconds on the monotonic clock *)
Definition Duration := Z.

Definition minDuration : Duration := - 2 ^ 63.
Definition maxDuration : Duration := 2 ^ 63 - 1.

(** [t.Sub(u)]: the difference, held in the range of an int64. *)
Definition Sub (t u : Time) : Duration :=
  Z.max minDuration (Z.min maxDuration (t - u)).

End time.

Module tg.

(** [tg.Message], with the fields the router reads or logs.  [Text] is
    the field the Go struct calls [Message]. *)
Record Message := mkMessage {
  Out : bool;
  Post : bool;
  ID : Z;
  Text : string
}.

(** The implementations of [tg.MessageClass]. *)
Inductive MessageClass :=
| IsMessageEmpty (id : Z)
| IsMessage (m : Message)
| IsMessageService (id : Z).

Record Entities := mkEntities {
  Short : bool;
  Users : list Z;
  Chats : list Z;
  Channels : list Z
}.

Definition UpdateNewMessageTypeID : Z := 0x1f2b0afd.
Definition UpdateNewChannelMessageTypeID : Z := 0x62ba04d9.

End tg.

Module message.

(** The two updates [Run] subscribes to, as [AnswerableMessageUpdate]s. *)
Inductive AnswerableMessageUpdate :=
| UpdateNewMessage (Message : tg.MessageClass) (Pts PtsCount : Z)
| UpdateNewChannelMessage (Message : tg.MessageClass) (Pts PtsCount : Z).

Definition GetMessage (u : AnswerableMessageUpdate) : tg.MessageClass :=
  match u with
  | UpdateNewMessage m _ _ => m
  | UpdateNewChannelMessage m _ _ => m
  end.

Definition TypeID (u : AnswerableMessageUpdate) : Z :=
  match u with
  | UpdateNewMessage _ _ _ => tg.UpdateNewMessageTypeID
  | UpdateNewChannelMessage _ _ _ => tg.UpdateNewChannelMessageTypeID
  end.

End message.

Module auth.

Record Status := mkStatus { Authorized : bool }.

Inductive UserAuthenticator := TerminalAuth.
Inductive SendCodeOptions := DefaultSendCodeOptions.

Record Flow := NewFlow { Auth : UserAuthenticator; Options : SendCodeOptions }.

End auth.

Module zerolog.

Inductive Level := DebugLevel | InfoLevel | WarnLevel | ErrorLevel.

Inductive Field :=
| Str (key val : string)
| Dur (key : string) (d : time.Duration)
| Err (e : error)
| Stack
| Interface (key : string) (m : tg.Message).

(** One [log.<Level>()...Send()]: the level and the fields in the order
    they were added.  Whether the sink prints it (the global level) is the
    logger's business. *)
Record Event := mkEvent { level : Level; fields : list Field }.

End zerolog.

Definition BadUpdate : error := errors.New "bad update".

(** ** Results, handlers and the outside world *)

(** A Go call returns or panics. *)
Inductive Res (A : Type) : Type :=
| Ok (a : A)
| Panic (why : string).
Arguments Ok {A} a.
Arguments Panic {A} why.

(** [commandProcessor]: what a handler does to the outside world (the
    network, the peers, the storage) and the error or nil it returns. *)
Definition commandProcessor (World : Type) : Type :=
  context.Context -> tg.Entities -> message.AnswerableMessageUpdate -> tg.Message ->
  World -> Res (option error) * World.

(** The handler methods of [Presentation]; their bodies live in other files
    of the package. *)
Record Handlers (World : Type) := mkHandlers {
  pingCommandHandler : commandProcessor World;
  helpCommandHandler : commandProcessor World;
  getMeCommandHandler : commandProcessor World;
  spamReactionCommandHandler : commandProcessor World;
  spamReactionMessageHandler : commandProcessor World
}.
Arguments pingCommandHandler {World} _.
Arguments helpCommandHandler {World} _.
Arguments getMeCommandHandler {World} _.
Arguments spamReactionCommandHandler {World} _.
Arguments spamReactionMessageHandler {World} _.

(** What the transport's update loop does when a subscription callback
    returns an error: the library decides, not this package. *)
Inductive CallbackErrorPolicy := GoOn | Stop.

(** The calls into the transport library and the clock. *)
Record Outside (World : Type) := mkOutside {
  (** [telegramClient.Auth().Status(ctx)]: a status pointer (nil as [None])
      and an error. *)
  Auth_Status : context.Context -> World -> (option auth.Status * option error) * World;
  (** [telegramClient.Auth().IfNecessary(ctx, flow)] *)
  Auth_IfNecessary : context.Context -> auth.Flow -> World -> option error * World;
  (** [telegramSender.Self().Text(ctx, text)], its update dropped *)
  Self_Text : context.Context -> string -> World -> option error * World;
  (** [time.Now()] *)
  Now : World -> time.Time * World;
  onCallbackError : CallbackErrorPolicy
}.
Arguments Auth_Status {World} _.
Arguments Auth_IfNecessary {World} _.
Arguments Self_Text {World} _.
Arguments Now {World} _.
Arguments onCallbackError {World} _.

(** ** The state of a presentation and its monad *)

(** The two closures [Run] hands to the update dispatcher. *)
Inductive RunClosure := onNewChannelMessageFunc | onNewMessageFunc.

(** [Presentation]: the command table and the dispatcher's table of
    callbacks by update type; the other fields are handles into the
    outside world. *)
Record Presentation (World : Type) := mkPresentation {
  commandHandler : gmap string (commandProcessor World);
  telegramDispatcher : gmap Z RunClosure
}.
Arguments mkPresentation {World} _ _.
Arguments commandHandler {World} _.
Arguments telegramDispatcher {World} _.

(** The handlers the code calls: the secondary one, and those of the
    command table by the name they were found under. *)
Inductive Callee := SpamReactionMessageHandler | CommandHandler (command : string).

Inductive Step :=
| Logged (e : zerolog.Event)
| Called (callee : Callee) (ctx : context.Context) (entities : tg.Entities)
         (update : message.AnswerableMessageUpdate) (m : tg.Message).

(** The receiver [r], the variable [err] that [Run]'s closures share, the
    outside world, and the trace of log entries and handler calls so far
    (oldest first). *)
Record St (World : Type) := mkSt {
  self : Presentation World;
  Run_err : option error;
  world : World;
  trace : list Step
}.
Arguments mkSt {World} _ _ _ _.
Arguments self {World} _.
Arguments Run_err {World} _.
Arguments world {World} _.
Arguments trace {World} _.

Definition M (World A : Type) : Type := St World -> Res A * St World.

Section Monad.
Context {World : Type}.

Definition ret {A} (a : A) : M World A := fun st => (Ok a, st).

Definition bind {A B} (c : M World A) (k : A -> M World B) : M World B :=
  fun st =>
    match c st with
    | (Ok a, st') => k a st'
    | (Panic why, st') => (Panic why, st')
    end.

Definition panic {A} (why : string) : M World A := fun st => (Panic why, st).

Definition gets {A} (f : St World -> A) : M World A := fun st => (Ok (f st), st).

Definition emit (s : Step) : M World unit :=
  fun st => (Ok tt, mkSt (self st) (Run_err st) (world st) (trace st ++ [s])).

(** A call into the library or the clock. *)
Definition outside {A} (f : World -> A * World) : M World A :=
  fun st => let '(a, w) := f (world st) in
            (Ok a, mkSt (self st) (Run_err st) w (trace st)).

(** A call of a handler, noted in the trace as it is made. *)
Definition call (callee : Callee) (h : commandProcessor World)
           (ctx : context.Context) (entities : tg.Entities)
           (update : message.AnswerableMessageUpdate) (m : tg.Message)
  : M World (option error) :=
  fun st => let '(res, w) := h ctx entities update m (world st) in
            (res, mkSt (self st) (Run_err st) w
                       (trace st ++ [Called callee ctx entities update m])).

Definition set_err (e : option error) : M World unit :=
  fun st => (Ok tt, mkSt (self st) e (world st) (trace st)).

(** [telegramDispatcher.OnNew...(f)]: [handlers[id] = f]. *)
Definition subscribe (id : Z) (f : RunClosure) : M World unit :=
  fun st => (Ok tt, mkSt (mkPresentation (commandHandler (self st))
                                         (<[id := f]> (telegramDispatcher (self st))))
                         (Run_err st) (world st) (trace st)).

Definition log (lvl : zerolog.Level) (fs : list zerolog.Field) : M World unit :=
  emit (Logged (zerolog.mkEvent lvl fs)).

End Monad.

Notation "'do' x <- c ; k" := (bind c (fun x => k))
  (at level 10, x name, c at level 100, k at level 200).
Notation "'do' ' p <- c ; k" := (bind c (fun x => match x with p => k end))
  (at level 10, p pattern, c at level 100, k at level 200).
Notation "'run' c ; k" := (bind c (fun _ => k))
  (at level 10, c at level 100, k at level 200).

(** ** The program *)

(** The flow [login] builds: codes and passwords are asked on the terminal. *)
Definition loginFlow : auth.Flow :=
  auth.NewFlow auth.TerminalAuth auth.DefaultSendCodeOptions.

Section Program.
Context {World : Type}.
Variable hs : Handlers World.
Variable env : Outside World.

(** [MustNewTelegramPresentation]: the client, sender, waiter and peer
    manager it builds are handles into the outside world; what it leaves
    in the struct is the command table, over a dispatcher that has no
    callback yet. *)
Definition MustNewTelegramPresentation : Presentation World :=
  mkPresentation
    {[ "ping" := pingCommandHandler hs;
       "help" := helpCommandHandler hs;
       "getMe" := getMeCommandHandler hs;
       "spamReaction" := spamReactionCommandHandler hs ]}
    ∅.

Definition login (ctx : context.Context) : M World (option error) :=
  let flow := loginFlow in
  do '(status, err) <- outside (Auth_Status env ctx);
  match status with
  | None => panic "invalid memory address or nil pointer dereference"
  | Some status =>
      do err <- (if negb (auth.Authorized status) then
                   run log zerolog.InfoLevel [zerolog.Str "status" "authorizing"];
                   outside (Auth_IfNecessary env ctx flow)
                 else ret err);
      match err with
      | Some e =>
          ret (errors.Join [Some e; Some (errors.New "error while authenticating")])
      | None =>
          do err <- outside (Self_Text env ctx "Telegram client initialized");
          match err with
          | Some e => ret (Some e)
          | None => ret None
          end
      end
  end.

Definition commandPrefix : ascii := "!"%char.

Definition routeMessage (ctx : context.Context) (entities : tg.Entities)
           (update : message.AnswerableMessageUpdate) : M World (option error) :=
  match message.GetMessage update with
  | tg.IsMessage m =>
      if tg.Post m then ret None
      else
        run log zerolog.DebugLevel
              [zerolog.Str "status" "message.got";
               zerolog.Str "text" (tg.Text m);
               zerolog.Interface "message" m];
        let fields := strings.Fields (tg.Text m) in
        if (length fields =? 0)%nat then ret None
        else
          do err <- call SpamReactionMessageHandler (spamReactionMessageHandler hs)
                         ctx entities update m;
          match err with
          | Some e => ret (Some e)
          | None =>
              match fields !! 0%nat with
              | None => panic "index out of range"
              | Some firstMessage =>
                  if (String.length firstMessage <? 1)%nat then ret None
                  else
                    match gostring.index firstMessage 0 with
                    | None => panic "index out of range"
                    | Some c0 =>
                        if negb (Ascii.eqb c0 commandPrefix) then ret None
                        else
                          let command := gostring.slice_from 1 firstMessage in
                          do table <- gets (fun st => commandHandler (self st));
                          match table !! command with
                          | None =>
                              run log zerolog.WarnLevel
                                    [zerolog.Str "status" "unknown.command";
                                     zerolog.Str "command" command;
                                     zerolog.Str "text" (tg.Text m)];
                              ret None
                          | Some handler =>
                              run log zerolog.InfoLevel
                                    [zerolog.Str "status" "command.got";
                                     zerolog.Str "command" command];
                              do t0 <- outside (Now env);
                              do err <- call (CommandHandler command) handler
                                             ctx entities update m;
                              match err with
                              | Some e => ret (Some e)
                              | None =>
                                  do t1 <- outside (Now env);
                                  run log zerolog.InfoLevel
                                        [zerolog.Str "status" "ok";
                                         zerolog.Dur "dur" (time.Sub t1 t0)];
                                  ret None
                              end
                          end
                    end
              end
          end
  | _ => ret (Some BadUpdate)
  end.

(** The two subscription closures of [Run] have one body, of three
    statements.  The first assigns the result of [routeMessage] to [err],
    which is the variable of the enclosing function and not one of the
    closure's own. *)
Definition callbackAssign (ctx : context.Context) (entities : tg.Entities)
           (update : message.AnswerableMessageUpdate) : M World unit :=
  do e <- routeMessage ctx entities update;
  set_err e.

(** [if err != nil { log.Error().Stack().Err(err)...Send() }] *)
Definition callbackReport : M World unit :=
  do err <- gets Run_err;
  match err with
  | Some e' =>
      log zerolog.ErrorLevel
          [zerolog.Stack; zerolog.Err e';
           zerolog.Str "status" "error.while.processing.request"]
  | None => ret tt
  end.

(** [return err] *)
Definition callbackReturn : M World (option error) := gets Run_err.

Definition subscriptionCallback (ctx : context.Context) (entities : tg.Entities)
           (update : message.AnswerableMessageUpdate) : M World (option error) :=
  run callbackAssign ctx entities update;
  run callbackReport;
  callbackReturn.

Definition invoke (f : RunClosure) :
  context.Context -> tg.Entities -> message.AnswerableMessageUpdate ->
  M World (option error) :=
  match f with
  | onNewChannelMessageFunc => subscriptionCallback
  | onNewMessageFunc => subscriptionCallback
  end.

(** Modelled from the spec: the update loop of the transport library
    ([telegram.RunUntilCanceled] driving the [tg.UpdateDispatcher]), which
    is not code of this package.  The updates the session receives before
    it ends are [inbox]; each goes to the callback subscribed for its
    type, if any; [onCallbackError env] says whether the loop goes on
    after a callback has returned an error. *)
Fixpoint dispatchUpdates
         (inbox : list (context.Context * tg.Entities * message.AnswerableMessageUpdate))
  : M World (option error) :=
  match inbox with
  | [] => ret None
  | (ctx, entities, update) :: rest =>
      do handlers <- gets (fun st => telegramDispatcher (self st));
      match handlers !! message.TypeID update with
      | None => dispatchUpdates rest
      | Some f =>
          do err <- invoke f ctx entities update;
          match err, onCallbackError env with
          | Some e, Stop => ret (Some e)
          | _, _ => dispatchUpdates rest
          end
      end
  end.

(** Modelled from the spec: [telegram.RunUntilCanceled] blocks while the
    updates arrive and returns when the session ends, with [ended] (nil on
    cancellation, a transport error otherwise) unless the loop was
    stopped earlier. *)
Definition RunUntilCanceled
           (inbox : list (context.Context * tg.Entities * message.AnswerableMessageUpdate))
           (ended : option error) : M World (option error) :=
  do err <- dispatchUpdates inbox;
  match err with
  | Some e => ret (Some e)
  | None => ret ended
  end.

(** [waiter.Run] calls the function it is given and returns its error;
    the flood-wait scheduler it runs beside it stays in the library. *)
Definition waiter_Run (ctx : context.Context)
           (f : context.Context -> M World (option error)) : M World (option error) :=
  f ctx.

(** [telegramClient.Run] calls the function it is given once the client is
    connected, and returns its error wrapped as [callback: ...]; nil stays
    nil.  Connecting, and the goroutine the function runs on, stay in the
    library: a panic of the function is the panic of the program. *)
Definition telegramClient_Run (ctx : context.Context)
           (f : context.Context -> M World (option error)) : M World (option error) :=
  do err <- f ctx;
  match err with
  | Some e => ret (Some (errors.Wrap e "callback"))
  | None => ret None
  end.

(** [Run].  What the transport delivers while [RunUntilCanceled] blocks,
    and how the session ends, are the arguments [inbox] and [ended]. *)
Definition Run
           (inbox : list (context.Context * tg.Entities * message.AnswerableMessageUpdate))
           (ended : option error) : M World (option error) :=
  waiter_Run context.Background (fun ctx =>
    telegramClient_Run ctx (fun ctx =>
      do e <- login ctx;
      run set_err e;
      do err <- gets Run_err;
      match err with
      | Some e' => ret (Some e')
      | None =>
          run subscribe tg.UpdateNewChannelMessageTypeID onNewChannelMessageFunc;
          run subscribe tg.UpdateNewMessageTypeID onNewMessageFunc;
          do e <- RunUntilCanceled inbox ended;
          run set_err e;
          do err <- gets Run_err;
          match err with
          | Some e' => ret (Some e')
          | None => ret None
          end
      end)).

(** The state [MustNewTelegramPresentation] leaves, over a world [w]. *)
Definition initial (w : World) : St World :=
  mkSt MustNewTelegramPresentation None w [].

End Program.

(** ** The log entries of [routeMessage], by name *)

Definition messageGot (m : tg.Message) : Step :=
  Logged (zerolog.mkEvent zerolog.DebugLevel
            [zerolog.Str "status" "message.got";
             zerolog.Str "text" (tg.Text m);
             zerolog.Interface "message" m]).

Definition unknownCommand (command text : string) : Step :=
  Logged (zerolog.mkEvent zerolog.WarnLevel
            [zerolog.Str "status" "unknown.command";
             zerolog.Str "command" command;
             zerolog.Str "text" text]).

Definition commandGot (command : string) : Step :=
  Logged (zerolog.mkEvent zerolog.InfoLevel
            [zerolog.Str "status" "command.got";
             zerolog.Str "command" command]).

Definition commandOk (dur : time.Duration) : Step :=
  Logged (zerolog.mkEvent zerolog.InfoLevel
            [zerolog.Str "status" "ok"; zerolog.Dur "dur" dur]).

Definition authorizing : Step :=
  Logged (zerolog.mkEvent zerolog.InfoLevel [zerolog.Str "status" "authorizing"]).

Definition requestFailed (e : error) : Step :=
  Logged (zerolog.mkEvent zerolog.ErrorLevel
            [zerolog.Stack; zerolog.Err e;
             zerolog.Str "status" "error.while.processing.request"]).

(** Reading a trace: the calls of command handlers in it. *)
Definition isCommandCall (s : Step) : bool :=
  match s with
  | Called (CommandHandler _) _ _ _ _ => true
  | _ => false
  end.


(** The steps a run has added to the trace, from the state it started in
    to the state it ended in. *)
Definition stepsSince {World : Type} (st st' : St World) : list Step :=
  drop (length (trace st)) (trace st').

(** ** What the theorems speak of *)

(** What the state is once the secondary handler has returned, leaving
    the world [w1]. *)
Definition afterSecondary {World : Type} (ctx : context.Context) (entities : tg.Entities)
           (update : message.AnswerableMessageUpdate) (m : tg.Message)
           (st : St World) (w1 : World) : St World :=
  mkSt (self st) (Run_err st) w1
       (trace st ++ [messageGot m;
                     Called SpamReactionMessageHandler ctx entities update m]).

(** A handler that returns, whatever it is called with: it does not panic. *)
Definition handlerReturns {World : Type} (h : commandProcessor World) : Prop :=
  forall ctx entities update m w, exists r, (h ctx entities update m w).1 = Ok r.

(** A computation keeps the command table when the table of the state it
    ends in, returning or panicking, is the table of the state it started
    in. *)
Definition keepsTable {World A : Type} (c : M World A) : Prop :=
  forall st, commandHandler (self (c st).2) = commandHandler (self st).

Section Reachable.
Context {World : Type}.
Variable hs : Handlers World.
Variable env : Outside World.

(** The states a presentation goes through: the one its construction
    leaves, and those that [login], [routeMessage], a subscription
    callback, a subscription, an assignment to [err], the update loop or
    [Run] lead to from there. *)
Inductive reachable : St World -> Prop :=
| reach_initial w : reachable (initial hs w)
| reach_login ctx st : reachable st -> reachable (login env ctx st).2
| reach_routeMessage ctx entities update st :
    reachable st -> reachable (routeMessage hs env ctx entities update st).2
| reach_callback ctx entities update st :
    reachable st -> reachable (subscriptionCallback hs env ctx entities update st).2
| reach_subscribe id f st : reachable st -> reachable (subscribe id f st).2
| reach_set_err e st : reachable st -> reachable (set_err e st).2
| reach_dispatchUpdates inbox st :
    reachable st -> reachable (dispatchUpdates hs env inbox st).2
| reach_Run inbox ended st : reachable st -> reachable (Run hs env inbox ended st).2.

End Reachable.

(** ** A small world to run the program in *)

Module Demo.

Record World := mkWorld {
  clock : Z;
  authorized : bool;
  sendFails : bool;
  outbox : list string
}.

Definition reply (text : string) (cost : Z) : commandProcessor World :=
  fun _ _ _ _ w =>
    (Ok None, mkWorld (clock w + cost) (authorized w) (sendFails w) (outbox w ++ [text])).

Definition failing (text : string) : commandProcessor World :=
  fun _ _ _ _ w => (Ok (Some (errors.New text)), w).

(** The secondary handler of this world reacts to incoming messages and
    fails on the account's own outgoing ones. *)
Definition react : commandProcessor World :=
  fun _ _ _ m w =>
    if tg.Out m then (Ok (Some (errors.New "reaction failed")), w)
    else (Ok None, mkWorld (clock w + 1) (authorized w) (sendFails w) (outbox w)).

Definition hs : Handlers World :=
  mkHandlers World (reply "pong" 5) (reply "commands: ping help getMe spamReaction" 7)
             (failing "getMe failed") (reply "spam reaction toggled" 3) react.

Definition env : Outside World :=
  mkOutside World
    (fun _ w => ((Some (auth.mkStatus (authorized w)), None), w))
    (fun _ _ w => (None, mkWorld (clock w) true (sendFails w) (outbox w)))
    (fun _ text w =>
       if sendFails w then (Some (errors.New "send failed"), w)
       else (None, mkWorld (clock w) (authorized w) (sendFails w) (outbox w ++ [text])))
    (fun w => (clock w, mkWorld (clock w + 1) (authorized w) (sendFails w) (outbox w)))
    GoOn.

Definition w0 : World := mkWorld 1000 true false [].
Definition st0 : St World := initial hs w0.

Definition ents : tg.Entities := tg.mkEntities false [7] [] [].

Definition incoming (text : string) : tg.Message := tg.mkMessage false false 42 text.

Definition direct (m : tg.Message) : message.AnswerableMessageUpdate :=
  message.UpdateNewMessage (tg.IsMessage m) 10 1.

Definition inChannel (m : tg.Message) : message.AnswerableMessageUpdate :=
  message.UpdateNewChannelMessage (tg.IsMessage m) 11 1.

(** A channel post, a message of the account's own, a message of white
    space only. *)
Definition posted : tg.Message := tg.mkMessage false true 43 "!ping".
Definition own : tg.Message := tg.mkMessage true false 44 "!ping".
Definition blank : tg.Message := tg.mkMessage false false 45 "   ".

(** A world in which the account is authorized and sending fails. *)
Definition wFail : World := mkWorld 1000 true true [].

(** A world in which the account has yet to authorize. *)
Definition wNew : World := mkWorld 1000 false true [].

End Demo.

(** ** More to read in a run *)

Definition isSpamReactionCall (s : Step) : bool :=
  match s with
  | Called SpamReactionMessageHandler _ _ _ _ => true
  | _ => false
  end.

(** What a subscription callback logs for the result it has found in
    [err]. *)
Definition reported (r : option error) : list Step :=
  match r with
  | Some e => [requestFailed e]
  | None => []
  end.

(** A computation keeps the presentation when it ends, returning or
    panicking, with the command table and the subscriptions it started
    with. *)
Definition keepsSelf {World A : Type} (c : M World A) : Prop :=
  forall st, self (c st).2 = self st.

(** The first tokens that name a command of the table built at
    construction. *)
Definition commandTokens : list string :=
  ["!ping"; "!help"; "!getMe"; "!spamReaction"].

(** More of the small world: a service message, which carries no
    [tg.Message], and a transport that cannot tell the status of the
    account. *)
Module Cases.


Definition envDown : Outside Demo.World :=
  mkOutside Demo.World
    (fun _ w => ((None, Some (errors.New "connection lost")), w))
    (Auth_IfNecessary Demo.env)
    (Self_Text Demo.env)
    (Now Demo.env)
    GoOn.

(** A transport whose flow is refused. *)
Definition envRefused : Outside Demo.World :=
  mkOutside Demo.World
    (Auth_Status Demo.env)
    (fun _ _ w => (Some (errors.New "code refused"), w))
    (Self_Text Demo.env)
    (Now Demo.env)
    GoOn.

Definition oneUpdate :
  list (context.Context * tg.Entities * message.AnswerableMessageUpdate) :=
  [(1%N, Demo.ents, Demo.direct (Demo.incoming "!ping"))].

(** The state [routeMessage] leaves after [!getMe], whose handler fails. *)
Definition afterGetMe : St Demo.World :=
  mkSt (self Demo.st0) None (Demo.mkWorld 1002 true false [])
       [messageGot (Demo.incoming "!getMe");
        Called SpamReactionMessageHandler 1%N Demo.ents
               (Demo.direct (Demo.incoming "!getMe")) (Demo.incoming "!getMe");
        commandGot "getMe";
        Called (CommandHandler "getMe") 1%N Demo.ents
               (Demo.direct (Demo.incoming "!getMe")) (Demo.incoming "!getMe")].


(** The state [login] leaves in the small world, and the error it gives
    when the flow is refused. *)
Definition loggedIn : St Demo.World :=
  mkSt (self Demo.st0) None
       (Demo.mkWorld 1000 true false ["Telegram client initialized"]) [].

Definition refused : error :=
  joinError [errors.New "code refused"; errors.New "error while authenticating"].

End Cases.

(** ** The tokens of a text, and a first run *)

Example Fields_ping :
  strings.Fields ("  !ping" +:+ String (ascii_of_nat 9)
                    ("now" +:+ String (ascii_of_nat 10) " "))
  = ["!ping"; "now"].
Proof. reflexivity. Qed.

Example Fields_nbsp :
  strings.Fields (String (ascii_of_nat 194) (String (ascii_of_nat 160) "!help"))
  = ["!help"].
Proof. reflexivity. Qed.

(** An em space (U+2003, three bytes) parts two tokens; the byte 0xA0 on
    its own is no rune, hence no space. *)
Example Fields_em_space :
  strings.Fields ("!help" +:+ String (ascii_of_nat 226) (String (ascii_of_nat 128)
                    (String (ascii_of_nat 131) "me")))
  = ["!help"; "me"].
Proof. reflexivity. Qed.

Example Fields_stray_byte :
  strings.Fields ("!help" +:+ String (ascii_of_nat 160) "me")
  = ["!help" +:+ String (ascii_of_nat 160) "me"].
Proof. reflexivity. Qed.

Example demo_ping :
  routeMessage Demo.hs Demo.env 1%N Demo.ents (Demo.direct (Demo.incoming "!ping")) Demo.st0
  = (Ok None,
     mkSt (self Demo.st0) None (Demo.mkWorld 1008 true false ["pong"])
          [messageGot (Demo.incoming "!ping");
           Called SpamReactionMessageHandler 1%N Demo.ents
                  (Demo.direct (Demo.incoming "!ping")) (Demo.incoming "!ping");
           commandGot "ping";
           Called (CommandHandler "ping") 1%N Demo.ents
                  (Demo.direct (Demo.incoming "!ping")) (Demo.incoming "!ping");
           commandOk 6]).
Proof. vm_compute. reflexivity. Qed.

(** ** Decoding loses no byte, and no token is empty *)

Lemma slice_to_from (n : nat) (s : string) :
  gostring.slice_to n s +:+ gostring.slice_from n s = s.
Proof.
  revert s. induction n as [|n IH]; intros [|c s]; try reflexivity.
  change (String c (gostring.slice_to n s +:+ gostring.slice_from n s) = String c s).
  f_equal. apply IH.
Qed.

Lemma length_slice_from (n : nat) (s : string) :
  String.length (gostring.slice_from n s) = (String.length s - n)%nat.
Proof.
  revert s. induction n as [|n IH]; intros [|c s];
    cbn [gostring.slice_from String.length]; first [reflexivity | apply IH].
Qed.

Lemma slice_to_nonempty (n : nat) (c : ascii) (s : string) :
  (1 <= n)%nat -> gostring.slice_to n (String c s) <> "".
Proof. destruct n; [lia|]. discriminate. Qed.

(** A rune of a string that is not empty takes one byte at least, and no
    more bytes than there are. *)
Lemma DecodeRuneInString_width (c : ascii) (s : string) :
  (1 <= (utf8.DecodeRuneInString (String c s)).2 <= String.length (String c s))%nat.
Proof.
  unfold utf8.DecodeRuneInString.
  repeat match goal with
         | |- context [if ?b then _ else _] => destruct b
         | |- context [match ?x with _ => _ end] => destruct x
         end;
    cbn [snd String.length]; lia.
Qed.

(** [range] with the length of the string as fuel reaches the end of the
    string: the chunks, put together again, are the string. *)
Lemma range_fuel_complete (fuel : nat) (s : string) :
  (String.length s <= fuel)%nat ->
  foldr (fun chunk acc => chunk.2 +:+ acc) "" (utf8.range_fuel fuel s) = s.
Proof.
  revert s. induction fuel as [|fuel IH]; intros [|c s] Hlen; cbn in Hlen;
    try reflexivity; [lia|].
  cbn [utf8.range_fuel].
  pose proof (DecodeRuneInString_width c s) as Hwidth.
  destruct (utf8.DecodeRuneInString (String c s)) as [r size].
  cbn [snd] in Hwidth. cbn [foldr snd].
  rewrite IH.
  - apply slice_to_from.
  - rewrite length_slice_from. cbn [String.length] in *. lia.
Qed.

Lemma range_complete (s : string) :
  foldr (fun chunk acc => chunk.2 +:+ acc) "" (utf8.range s) = s.
Proof. apply range_fuel_complete. lia. Qed.

Lemma range_fuel_chunks (fuel : nat) (s : string) :
  Forall (fun chunk => chunk.2 <> "") (utf8.range_fuel fuel s).
Proof.
  revert s. induction fuel as [|fuel IH]; intros [|c s]; cbn [utf8.range_fuel];
    try constructor.
  pose proof (DecodeRuneInString_width c s) as Hwidth.
  destruct (utf8.DecodeRuneInString (String c s)) as [r size].
  cbn [snd] in Hwidth. constructor; [|apply IH].
  cbn [snd]. apply slice_to_nonempty. lia.
Qed.

Lemma append_nonempty (t bytes : string) : bytes <> "" -> t +:+ bytes <> "".
Proof. destruct t; cbn; [tauto|discriminate]. Qed.

Lemma fieldsLoop_nonempty (f : utf8.rune -> bool) (rs : list (utf8.rune * string))
      (cur : option string) :
  Forall (fun chunk => chunk.2 <> "") rs ->
  (forall t, cur = Some t -> t <> "") ->
  Forall (fun t => t <> "") (strings.fieldsLoop f rs cur).
Proof.
  intros Hrs. revert cur.
  induction Hrs as [|[r bytes] rs Hbytes _ IH]; intros cur Hcur; cbn [strings.fieldsLoop].
  - destruct cur as [t|]; constructor; [apply Hcur; reflexivity|constructor].
  - cbn [snd] in Hbytes. destruct (f r).
    + destruct cur as [t|].
      * constructor; [apply Hcur; reflexivity|]. apply IH. discriminate.
      * apply IH. discriminate.
    + apply IH. intros t [= <-].
      destruct cur as [t0|]; [apply append_nonempty|]; exact Hbytes.
Qed.

(** No token of [strings.Fields] is empty: the test [len(firstMessage) < 1]
    of [routeMessage] never holds, and [firstMessage[0]] is always there. *)
Lemma Fields_nonempty (s : string) : Forall (fun t => t <> "") (strings.Fields s).
Proof.
  unfold strings.Fields, strings.FieldsFunc, utf8.range.
  apply fieldsLoop_nonempty; [apply range_fuel_chunks|discriminate].
Qed.

(** ** Facts about the monad *)

Section MonadFacts.
Context {World : Type}.

Lemma bind_ok {A B} (c : M World A) (k : A -> M World B) st a st' :
  c st = (Ok a, st') -> bind c k st = k a st'.
Proof. intros Hc. unfold bind. rewrite Hc. reflexivity. Qed.

Lemma bind_panic {A B} (c : M World A) (k : A -> M World B) st why st' :
  c st = (Panic why, st') -> bind c k st = (Panic why, st').
Proof. intros Hc. unfold bind. rewrite Hc. reflexivity. Qed.

End MonadFacts.

Ltac route_unfold :=
  unfold routeMessage, log, emit, gets, ret, panic.

(** ** [routeMessage] *)

Section RouteMessage.
Context {World : Type}.
Variable hs : Handlers World.
Variable env : Outside World.

Implicit Types (ctx : context.Context) (entities : tg.Entities)
         (update : message.AnswerableMessageUpdate) (m : tg.Message)
         (st : St World).

(** C7. An update whose message is a channel post is dropped at once:
    [routeMessage] returns nil and leaves the state as it was, so it logs
    nothing, changes nothing outside and calls no handler. *)
Theorem routeMessage_channel_post ctx entities update m st :
  message.GetMessage update = tg.IsMessage m ->
  tg.Post m = true ->
  routeMessage hs env ctx entities update st = (Ok None, st).
Proof.
  intros Hmsg Hpost. unfold routeMessage. rewrite Hmsg, Hpost. reflexivity.
Qed.

(** C1, as the code has it.  For a message that is not a post and whose
    text has no token, [routeMessage] returns nil after the debug entry
    alone: neither the secondary handler nor a command handler is called
    and the outside world is untouched. *)
Theorem routeMessage_no_token ctx entities update m st :
  message.GetMessage update = tg.IsMessage m ->
  tg.Post m = false ->
  strings.Fields (tg.Text m) = [] ->
  routeMessage hs env ctx entities update st
  = (Ok None, mkSt (self st) (Run_err st) (world st) (trace st ++ [messageGot m])).
Proof.
  intros Hmsg Hpost Hfields. route_unfold.
  rewrite Hmsg, Hpost, Hfields. reflexivity.
Qed.

Lemma routeMessage_secondary ctx entities update m st first rest res w1 :
  message.GetMessage update = tg.IsMessage m ->
  tg.Post m = false ->
  strings.Fields (tg.Text m) = first :: rest ->
  spamReactionMessageHandler hs ctx entities update m (world st) = (res, w1) ->
  let st1 := afterSecondary ctx entities update m st w1 in
  routeMessage hs env ctx entities update st
  = match res with
    | Ok (Some e) => (Ok (Some e), st1)
    | Panic why => (Panic why, st1)
    | Ok None =>
        if (String.length first <? 1)%nat then (Ok None, st1)
        else
          match gostring.index first 0 with
          | None => (Panic "index out of range", st1)
          | Some c0 =>
              if negb (Ascii.eqb c0 commandPrefix) then (Ok None, st1)
              else
                let command := gostring.slice_from 1 first in
                match commandHandler (self st) !! command with
                | None =>
                    (Ok None,
                     mkSt (self st) (Run_err st) w1
                          (trace st1 ++ [unknownCommand command (tg.Text m)])%list)
                | Some handler =>
                    let t0 := (Now env w1).1 in
                    let w2 := (Now env w1).2 in
                    let called :=
                      (trace st1 ++ [commandGot command;
                                     Called (CommandHandler command) ctx entities update m])%list in
                    match handler ctx entities update m w2 with
                    | (Ok (Some e), w3) =>
                        (Ok (Some e), mkSt (self st) (Run_err st) w3 called)
                    | (Panic why, w3) =>
                        (Panic why, mkSt (self st) (Run_err st) w3 called)
                    | (Ok None, w3) =>
                        (Ok None,
                         mkSt (self st) (Run_err st) (Now env w3).2
                              (called ++ [commandOk (time.Sub (Now env w3).1 t0)])%list)
                    end
                end
          end
    end.
Proof.
  intros Hmsg Hpost Hfields Hspam. unfold afterSecondary.
  unfold routeMessage. rewrite Hmsg, Hpost, Hfields. cbn [length Nat.eqb].
  unfold bind, log, emit, call, outside, gets, ret, panic.
  cbn [trace world self Run_err]. rewrite Hspam.
  destruct res as [[e|]|why]; cbn [trace world self Run_err];
    rewrite <- ?app_assoc; [reflexivity| |reflexivity].
  cbn [lookup list_lookup].
  destruct (String.length first <? 1)%nat; [reflexivity|].
  destruct (gostring.index first 0) as [c0|]; [|reflexivity].
  destruct (negb (Ascii.eqb c0 commandPrefix)); [reflexivity|].
  cbn [trace world self Run_err].
  destruct (commandHandler (self st) !! gostring.slice_from 1 first) as [handler|];
    cbn [trace world self Run_err];
    [|rewrite <- !app_assoc; reflexivity].
  destruct (Now env w1) as [t0 w2]. cbn [fst snd trace world self Run_err].
  destruct (handler ctx entities update m w2) as [[[e|]|why] w3];
    cbn [trace world self Run_err]; rewrite <- ?app_assoc;
    [reflexivity| |reflexivity].
  destruct (Now env w3) as [t1 w4]. cbn [fst snd trace world self Run_err].
  rewrite <- !app_assoc. reflexivity.
Qed.

(** X5. [routeMessage] has no panic of its own: it indexes [fields] and
    [firstMessage] where they have an element, so it returns whenever the
    handlers it calls return. *)
Lemma routeMessage_returns ctx entities update st :
  handlerReturns (spamReactionMessageHandler hs) ->
  (forall (name : string) h,
      commandHandler (self st) !! name = Some h -> handlerReturns h) ->
  exists r st', routeMessage hs env ctx entities update st = (Ok r, st').
Proof.
  intros Hspam Htable.
  destruct (message.GetMessage update) as [id|m|id] eqn:Hmsg;
    try (unfold routeMessage; rewrite Hmsg; eexists _, _; reflexivity).
  destruct (tg.Post m) eqn:Hpost.
  { unfold routeMessage. rewrite Hmsg, Hpost. eexists _, _. reflexivity. }
  destruct (strings.Fields (tg.Text m)) as [|first rest] eqn:Hfields.
  { route_unfold. rewrite Hmsg, Hpost, Hfields. eexists _, _. reflexivity. }
  pose proof (Fields_nonempty (tg.Text m)) as Hne. rewrite Hfields in Hne.
  apply Forall_cons in Hne as [Hfirst _].
  destruct first as [|c0 tail]; [congruence|].
  destruct (Hspam ctx entities update m (world st)) as [r1 Hr1].
  destruct (spamReactionMessageHandler hs ctx entities update m (world st))
    as [res w1] eqn:Hcall.
  cbn [fst] in Hr1. subst res.
  rewrite (routeMessage_secondary ctx entities update m st _ rest _ w1
             Hmsg Hpost Hfields Hcall).
  cbv zeta. cbn [String.length Nat.ltb Nat.leb gostring.index String.get].
  destruct r1 as [e|]; [eauto|].
  destruct (negb (Ascii.eqb c0 commandPrefix)); [eauto|].
  cbn [gostring.slice_from].
  destruct (commandHandler (self st) !! tail) as [handler|] eqn:Hlookup; [|eauto].
  destruct (Htable tail handler Hlookup ctx entities update m (Now env w1).2) as [r3 Hr3].
  destruct (handler ctx entities update m (Now env w1).2) as [res3 w3].
  cbn [fst] in Hr3. subst res3. destruct r3 as [e|]; eauto.
Qed.

(** C4. For a message that is not a post and has a token, the secondary
    handler is called first, in the world as [routeMessage] found it:
    whatever the first token is, the trace goes on with the debug entry
    and this call, and everything else the run does comes after them.  If
    the handler returns an error, [routeMessage] returns that error with
    nothing more done: no command handler is called. *)
Theorem secondary_handler_first ctx entities update m st res w1 :
  message.GetMessage update = tg.IsMessage m ->
  tg.Post m = false ->
  strings.Fields (tg.Text m) <> [] ->
  spamReactionMessageHandler hs ctx entities update m (world st) = (res, w1) ->
  let st1 := afterSecondary ctx entities update m st w1 in
  (exists later,
      trace (routeMessage hs env ctx entities update st).2 = (trace st1 ++ later)%list)
  /\ (forall e, res = Ok (Some e) ->
                routeMessage hs env ctx entities update st = (Ok (Some e), st1)
                /\ List.filter isCommandCall (stepsSince st st1) = []).
Proof.
  intros Hmsg Hpost Hfields Hspam st1.
  destruct (strings.Fields (tg.Text m)) as [|first rest] eqn:Hf; [congruence|].
  pose proof (routeMessage_secondary ctx entities update m st first rest res w1
                Hmsg Hpost Hf Hspam) as Hrun.
  cbv zeta in Hrun. fold st1 in Hrun. split.
  - rewrite Hrun. clear Hrun.
    repeat match goal with
           | |- context [match ?x with _ => _ end] => destruct x
           end;
      cbn [snd trace]; rewrite <- ?app_assoc;
      first [ by exists [] ; rewrite app_nil_r
            | eexists; reflexivity ].
  - intros e ->. split; [exact Hrun|].
    unfold stepsSince, st1, afterSecondary. cbn [trace].
    rewrite drop_app_length. reflexivity.
Qed.

(** C5. Let the first token be [!] followed by [c], let [c] be in the
    command table with [handler], and let the secondary handler return
    nil.  Then [routeMessage] logs [command.got], reads the clock and
    calls [handler] with the context, the entities, the update and the
    whole message; this is the one call of a command handler in the run.
    An error of the handler is returned as it is; when the handler
    returns nil, the clock is read again, [ok] is logged with the time
    elapsed between the two readings, and nil is returned. *)
Theorem known_command_dispatch ctx entities update m st (c : string) rest handler w1 :
  message.GetMessage update = tg.IsMessage m ->
  tg.Post m = false ->
  strings.Fields (tg.Text m) = String commandPrefix c :: rest ->
  commandHandler (self st) !! c = Some handler ->
  spamReactionMessageHandler hs ctx entities update m (world st) = (Ok None, w1) ->
  let t0 := (Now env w1).1 in
  let w2 := (Now env w1).2 in
  let res := (handler ctx entities update m w2).1 in
  let w3 := (handler ctx entities update m w2).2 in
  let invoked := Called (CommandHandler c) ctx entities update m in
  let steps :=
    [messageGot m; Called SpamReactionMessageHandler ctx entities update m;
     commandGot c; invoked] in
  routeMessage hs env ctx entities update st
  = match res with
    | Ok (Some e) =>
        (Ok (Some e), mkSt (self st) (Run_err st) w3 (trace st ++ steps)%list)
    | Ok None =>
        (Ok None,
         mkSt (self st) (Run_err st) (Now env w3).2
              (trace st ++ steps ++ [commandOk (time.Sub (Now env w3).1 t0)])%list)
    | Panic why =>
        (Panic why, mkSt (self st) (Run_err st) w3 (trace st ++ steps)%list)
    end
  /\ List.filter isCommandCall
                 (stepsSince st (routeMessage hs env ctx entities update st).2)
     = [invoked].
Proof.
  intros Hmsg Hpost Hfields Htable Hspam t0 w2 res w3 invoked steps.
  pose proof (routeMessage_secondary ctx entities update m st _ rest _ w1
                Hmsg Hpost Hfields Hspam) as Hrun.
  cbv zeta in Hrun. cbn [String.length Nat.ltb Nat.leb gostring.index String.get] in Hrun.
  change (negb (Ascii.eqb commandPrefix commandPrefix)) with false in Hrun.
  cbn [gostring.slice_from] in Hrun. rewrite Htable in Hrun.
  fold t0 w2 in Hrun. unfold afterSecondary in Hrun. cbn [trace] in Hrun.
  rewrite (surjective_pairing (handler ctx entities update m w2)) in Hrun.
  fold res w3 in Hrun.
  assert (Heq : routeMessage hs env ctx entities update st
                = match res with
                  | Ok (Some e) =>
                      (Ok (Some e),
                       mkSt (self st) (Run_err st) w3 (trace st ++ steps)%list)
                  | Ok None =>
                      (Ok None,
                       mkSt (self st) (Run_err st) (Now env w3).2
                            (trace st ++ steps
                                   ++ [commandOk (time.Sub (Now env w3).1 t0)])%list)
                  | Panic why =>
                      (Panic why,
                       mkSt (self st) (Run_err st) w3 (trace st ++ steps)%list)
                  end).
  { rewrite Hrun. destruct res as [[e|]|why]; rewrite <- ?app_assoc; reflexivity. }
  split; [exact Heq|].
  rewrite Heq. unfold stepsSince.
  destruct res as [[e|]|why]; cbn [snd trace]; rewrite drop_app_length; reflexivity.
Qed.

(** C6. Let the first token be [!] followed by a name that the command
    table does not hold, and let the secondary handler return nil.  Then
    [routeMessage] logs a warning that carries the name and the text of
    the message and returns nil; no command handler is called. *)
Theorem unknown_command_warns ctx entities update m st (x : string) rest w1 :
  message.GetMessage update = tg.IsMessage m ->
  tg.Post m = false ->
  strings.Fields (tg.Text m) = String commandPrefix x :: rest ->
  commandHandler (self st) !! x = None ->
  spamReactionMessageHandler hs ctx entities update m (world st) = (Ok None, w1) ->
  routeMessage hs env ctx entities update st
  = (Ok None,
     mkSt (self st) (Run_err st) w1
          (trace st ++ [messageGot m;
                        Called SpamReactionMessageHandler ctx entities update m;
                        unknownCommand x (tg.Text m)])%list).
Proof.
  intros Hmsg Hpost Hfields Htable Hspam.
  rewrite (routeMessage_secondary ctx entities update m st _ rest _ w1
             Hmsg Hpost Hfields Hspam).
  cbv zeta. cbn [String.length Nat.ltb Nat.leb gostring.index String.get].
  change (negb (Ascii.eqb commandPrefix commandPrefix)) with false.
  cbn [gostring.slice_from]. unfold commandProcessor in *. rewrite Htable.
  unfold afterSecondary. cbn [trace]. rewrite <- app_assoc. reflexivity.
Qed.

(** C8. Let the message have a first token that does not begin with
    [!], and let the secondary handler return nil.  Then [routeMessage]
    returns nil once the secondary handler has run: no command handler is
    called and nothing more is logged. *)
Theorem plain_chat_dropped ctx entities update m st first rest w1 :
  message.GetMessage update = tg.IsMessage m ->
  tg.Post m = false ->
  strings.Fields (tg.Text m) = first :: rest ->
  (forall tail, first <> String commandPrefix tail) ->
  spamReactionMessageHandler hs ctx entities update m (world st) = (Ok None, w1) ->
  routeMessage hs env ctx entities update st
  = (Ok None, afterSecondary ctx entities update m st w1)
  /\ List.filter isCommandCall
                 (stepsSince st (routeMessage hs env ctx entities update st).2)
     = [].
Proof.
  intros Hmsg Hpost Hfields Hfirst Hspam.
  assert (Heq : routeMessage hs env ctx entities update st
                = (Ok None, afterSecondary ctx entities update m st w1)).
  { rewrite (routeMessage_secondary ctx entities update m st first rest _ w1
               Hmsg Hpost Hfields Hspam).
    cbv zeta. destruct first as [|c0 tail]; [reflexivity|].
    cbn [String.length Nat.ltb Nat.leb gostring.index String.get].
    destruct (Ascii.eqb c0 commandPrefix) eqn:Hc; [|reflexivity].
    apply Ascii.eqb_eq in Hc. subst c0. destruct (Hfirst tail). reflexivity. }
  split; [exact Heq|].
  rewrite Heq. unfold stepsSince, afterSecondary. cbn [snd trace].
  rewrite drop_app_length. reflexivity.
Qed.

(** C10. Let the first token be [!] alone, in a presentation whose
    command table is the one built at construction, and let the secondary
    handler return nil.  The command name is then the empty string, which
    the table does not hold: [routeMessage] logs the unknown-command
    warning for it and returns nil. *)
Theorem bare_prefix_is_unknown_command ctx entities update m st rest w1 :
  message.GetMessage update = tg.IsMessage m ->
  tg.Post m = false ->
  strings.Fields (tg.Text m) = "!" :: rest ->
  commandHandler (self st) = commandHandler (MustNewTelegramPresentation hs) ->
  spamReactionMessageHandler hs ctx entities update m (world st) = (Ok None, w1) ->
  gostring.slice_from 1 "!" = ""
  /\ commandHandler (self st) !! "" = None
  /\ routeMessage hs env ctx entities update st
     = (Ok None,
        mkSt (self st) (Run_err st) w1
             (trace st ++ [messageGot m;
                           Called SpamReactionMessageHandler ctx entities update m;
                           unknownCommand "" (tg.Text m)])%list).
Proof.
  intros Hmsg Hpost Hfields Htable Hspam.
  assert (Hnone : commandHandler (self st) !! "" = None).
  { rewrite Htable. reflexivity. }
  split; [reflexivity|]. split; [exact Hnone|].
  rewrite (routeMessage_secondary ctx entities update m st _ rest _ w1
             Hmsg Hpost Hfields Hspam).
  cbv zeta. cbn [String.length Nat.ltb Nat.leb gostring.index String.get].
  change (negb (Ascii.eqb "!"%char commandPrefix)) with false.
  cbn [gostring.slice_from]. unfold commandProcessor in *. rewrite Hnone.
  unfold afterSecondary. cbn [trace]. rewrite <- app_assoc. reflexivity.
Qed.

End RouteMessage.

(** ** The command table is never written *)

Section TableInvariant.
Context {World : Type}.
Variable hs : Handlers World.
Variable env : Outside World.

Lemma keeps_ret {A} (a : A) : keepsTable (ret a : M World A).
Proof. intros st. reflexivity. Qed.

Lemma keeps_panic {A} why : keepsTable (panic why : M World A).
Proof. intros st. reflexivity. Qed.

Lemma keeps_gets {A} (f : St World -> A) : keepsTable (gets f).
Proof. intros st. reflexivity. Qed.

Lemma keeps_log lvl fs : keepsTable (log lvl fs : M World unit).
Proof. intros st. reflexivity. Qed.

Lemma keeps_set_err e : keepsTable (set_err e : M World unit).
Proof. intros st. reflexivity. Qed.

Lemma keeps_subscribe id f : keepsTable (subscribe id f : M World unit).
Proof. intros st. reflexivity. Qed.

Lemma keeps_outside {A} (f : World -> A * World) : keepsTable (outside f).
Proof. intros st. unfold outside. destruct (f (world st)). reflexivity. Qed.

Lemma keeps_call callee (h : commandProcessor World) ctx entities update m :
  keepsTable (call callee h ctx entities update m).
Proof.
  intros st. unfold call.
  destruct (h ctx entities update m (world st)). reflexivity.
Qed.

Lemma keeps_bind {A B} (c : M World A) (k : A -> M World B) :
  keepsTable c -> (forall a, keepsTable (k a)) -> keepsTable (bind c k).
Proof.
  intros Hc Hk st. unfold bind. specialize (Hc st).
  destruct (c st) as [[a|why] st']; cbn [snd] in *.
  - rewrite Hk. exact Hc.
  - exact Hc.
Qed.

Ltac keeps :=
  repeat first
    [ apply keeps_ret | apply keeps_panic | apply keeps_gets | apply keeps_log
    | apply keeps_set_err | apply keeps_subscribe | apply keeps_outside
    | apply keeps_call
    | apply keeps_bind; [|intros ?]
    | progress cbv zeta
    | match goal with
      | |- keepsTable (match ?x with _ => _ end) => destruct x
      end ].

Lemma routeMessage_keepsTable ctx entities update :
  keepsTable (routeMessage hs env ctx entities update).
Proof. unfold routeMessage. keeps. Qed.

Lemma login_keepsTable ctx : keepsTable (login env ctx).
Proof. unfold login. keeps. Qed.

Lemma subscriptionCallback_keepsTable ctx entities update :
  keepsTable (subscriptionCallback hs env ctx entities update).
Proof.
  unfold subscriptionCallback, callbackAssign, callbackReport, callbackReturn.
  apply keeps_bind; [|intros ?; keeps].
  apply keeps_bind; [apply routeMessage_keepsTable|intros ?]. keeps.
Qed.

Lemma dispatchUpdates_keepsTable inbox : keepsTable (dispatchUpdates hs env inbox).
Proof.
  induction inbox as [|[[ctx entities] update] rest IH]; cbn [dispatchUpdates].
  - apply keeps_ret.
  - apply keeps_bind; [apply keeps_gets|intros handlers].
    destruct (handlers !! message.TypeID update) as [f|]; [|exact IH].
    apply keeps_bind.
    + destruct f; apply subscriptionCallback_keepsTable.
    + intros [e|]; [destruct (onCallbackError env)|]; first [exact IH | apply keeps_ret].
Qed.

Lemma Run_keepsTable inbox ended : keepsTable (Run hs env inbox ended).
Proof.
  unfold Run, waiter_Run, telegramClient_Run.
  apply keeps_bind; [|intros [e|]; apply keeps_ret].
  apply keeps_bind; [apply login_keepsTable|intros ?].
  apply keeps_bind; [apply keeps_set_err|intros ?].
  apply keeps_bind; [apply keeps_gets|intros [e|]]; [apply keeps_ret|].
  apply keeps_bind; [apply keeps_subscribe|intros ?].
  apply keeps_bind; [apply keeps_subscribe|intros ?].
  apply keeps_bind.
  - unfold RunUntilCanceled.
    apply keeps_bind; [apply dispatchUpdates_keepsTable|intros ?]. keeps.
  - intros ?. keeps.
Qed.

(** C9. The command table that [MustNewTelegramPresentation] builds has
    the four names [ping], [help], [getMe] and [spamReaction], each with
    its handler, and no other name.  [routeMessage], [login] and [Run]
    leave the table of any state as they found it, so in every state a
    presentation reaches the table is the one built at construction. *)
Theorem command_table_fixed :
  let built := commandHandler (MustNewTelegramPresentation hs) in
  (dom built = ({["ping"; "help"; "getMe"; "spamReaction"]} : gset string)
   /\ built !! "ping" = Some (pingCommandHandler hs)
   /\ built !! "help" = Some (helpCommandHandler hs)
   /\ built !! "getMe" = Some (getMeCommandHandler hs)
   /\ built !! "spamReaction" = Some (spamReactionCommandHandler hs))
  /\ (forall ctx entities update, keepsTable (routeMessage hs env ctx entities update))
  /\ (forall ctx, keepsTable (login env ctx))
  /\ (forall inbox ended, keepsTable (Run hs env inbox ended))
  /\ (forall st, reachable hs env st -> commandHandler (self st) = built).
Proof.
  intros built. split; [|split; [|split; [|split]]].
  - split; [|repeat split].
    unfold built, MustNewTelegramPresentation. cbn [commandHandler].
    rewrite !dom_insert_L, ?dom_singleton_L, ?dom_empty_L. set_solver.
  - apply routeMessage_keepsTable.
  - apply login_keepsTable.
  - apply Run_keepsTable.
  - intros st Hreach. induction Hreach as
      [w|ctx st _ IH|ctx entities update st _ IH|ctx entities update st _ IH
      |id f st _ IH|e st _ IH|inbox st _ IH|inbox ended st _ IH].
    + reflexivity.
    + rewrite login_keepsTable. exact IH.
    + rewrite routeMessage_keepsTable. exact IH.
    + rewrite subscriptionCallback_keepsTable. exact IH.
    + exact IH.
    + exact IH.
    + rewrite dispatchUpdates_keepsTable. exact IH.
    + rewrite Run_keepsTable. exact IH.
Qed.

End TableInvariant.

(** ** [login] and [Run] *)

Section Session.
Context {World : Type}.
Variable hs : Handlers World.
Variable env : Outside World.

(** [login] once the status is known and the flow, if it was needed, has
    returned nil: what is left is the confirmation message. *)
Lemma login_authorized ctx (st : St World) status err0 w1 w2 steps :
  Auth_Status env ctx (world st) = ((Some status, err0), w1) ->
  (auth.Authorized status = true /\ err0 = None /\ w2 = w1 /\ steps = [])
  \/ (auth.Authorized status = false
      /\ Auth_IfNecessary env ctx loginFlow w1 = (None, w2)
      /\ steps = [authorizing]) ->
  login env ctx st
  = (Ok (Self_Text env ctx "Telegram client initialized" w2).1,
     mkSt (self st) (Run_err st)
          (Self_Text env ctx "Telegram client initialized" w2).2
          (trace st ++ steps)%list).
Proof.
  intros Hstatus Hflow.
  unfold login, bind, outside, log, emit, ret. rewrite Hstatus.
  destruct Hflow as [(Hauth & -> & -> & ->)|(Hauth & Hflow & ->)];
    rewrite Hauth; cbn [negb world self Run_err trace].
  - destruct (Self_Text env ctx _ w1) as [[e|] w3]; cbn [fst snd];
      rewrite app_nil_r; reflexivity.
  - fold loginFlow. rewrite Hflow. cbn [world self Run_err trace].
    destruct (Self_Text env ctx _ w2) as [[e|] w3]; reflexivity.
Qed.

(** [Run] when [login] has not returned nil: an error ends it, wrapped by
    the transport's [Run]; a panic goes through. *)
Lemma Run_login_error inbox ended (st st1 : St World) e :
  login env context.Background st = (Ok (Some e), st1) ->
  Run hs env inbox ended st
  = (Ok (Some (errors.Wrap e "callback")),
     mkSt (self st1) (Some e) (world st1) (trace st1)).
Proof.
  intros Hlogin. unfold Run, waiter_Run, telegramClient_Run.
  unfold bind at 1. rewrite (bind_ok _ _ _ _ _ Hlogin). reflexivity.
Qed.

Lemma Run_login_panic inbox ended (st st1 : St World) why :
  login env context.Background st = (Panic why, st1) ->
  Run hs env inbox ended st = (Panic why, st1).
Proof.
  intros Hlogin. unfold Run, waiter_Run, telegramClient_Run.
  unfold bind at 1. rewrite (bind_panic _ _ _ _ _ Hlogin). reflexivity.
Qed.

(** C2, as the code has it.  When the status is read, the flow (if it
    was needed) has returned nil and the confirmation message to the
    account itself fails with [e], [login] returns [e] as it is.  [Run]
    then ends with no subscription made and no update handled: the
    function it gave to the transport returns [e], which the transport's
    [Run] hands back wrapped as [callback: e]. *)
Theorem login_returns_send_error ctx (st : St World) status err0 w1 w2 steps e w3
        inbox ended :
  Auth_Status env ctx (world st) = ((Some status, err0), w1) ->
  (auth.Authorized status = true /\ err0 = None /\ w2 = w1 /\ steps = [])
  \/ (auth.Authorized status = false
      /\ Auth_IfNecessary env ctx loginFlow w1 = (None, w2)
      /\ steps = [authorizing]) ->
  Self_Text env ctx "Telegram client initialized" w2 = (Some e, w3) ->
  login env ctx st
  = (Ok (Some e), mkSt (self st) (Run_err st) w3 (trace st ++ steps)%list)
  /\ (ctx = context.Background ->
      Run hs env inbox ended st
      = (Ok (Some (errors.Wrap e "callback")),
         mkSt (self st) (Some e) w3 (trace st ++ steps)%list)).
Proof.
  intros Hstatus Hflow Hsend.
  pose proof (login_authorized ctx st status err0 w1 w2 steps Hstatus Hflow) as Hlogin.
  rewrite Hsend in Hlogin. cbn [fst snd] in Hlogin.
  split; [exact Hlogin|].
  intros ->. exact (Run_login_error inbox ended st _ e Hlogin).
Qed.

(** What a subscription callback does with the result of [routeMessage]:
    an error is logged with its stack and handed back to the dispatcher,
    nil is handed back in silence; either way the shared [err] holds the
    result. *)
Lemma subscriptionCallback_error ctx entities update (st st1 : St World) e :
  routeMessage hs env ctx entities update st = (Ok (Some e), st1) ->
  subscriptionCallback hs env ctx entities update st
  = (Ok (Some e),
     mkSt (self st1) (Some e) (world st1) (trace st1 ++ [requestFailed e])%list).
Proof.
  intros Hroute. unfold subscriptionCallback, callbackAssign.
  unfold bind at 1. rewrite (bind_ok _ _ _ _ _ Hroute). reflexivity.
Qed.

Lemma subscriptionCallback_nil ctx entities update (st st1 : St World) :
  routeMessage hs env ctx entities update st = (Ok None, st1) ->
  subscriptionCallback hs env ctx entities update st
  = (Ok None, mkSt (self st1) None (world st1) (trace st1)).
Proof.
  intros Hroute. unfold subscriptionCallback, callbackAssign.
  unfold bind at 1. rewrite (bind_ok _ _ _ _ _ Hroute). reflexivity.
Qed.

(** A panic of [routeMessage] goes through the callback as it is. *)
Lemma subscriptionCallback_panic ctx entities update (st st1 : St World) why :
  routeMessage hs env ctx entities update st = (Panic why, st1) ->
  subscriptionCallback hs env ctx entities update st = (Panic why, st1).
Proof.
  intros Hroute. unfold subscriptionCallback, callbackAssign.
  unfold bind at 1. rewrite (bind_panic _ _ _ _ _ Hroute). reflexivity.
Qed.

(** The update loop after a callback has returned: it goes on with the
    next update, unless the callback returned an error and the
    transport's policy is to stop. *)
Lemma dispatchUpdates_step ctx entities update rest (st st1 : St World) f r :
  telegramDispatcher (self st) !! message.TypeID update = Some f ->
  invoke hs env f ctx entities update st = (Ok r, st1) ->
  dispatchUpdates hs env ((ctx, entities, update) :: rest) st
  = match r, onCallbackError env with
    | Some e, Stop => (Ok (Some e), st1)
    | _, _ => dispatchUpdates hs env rest st1
    end.
Proof.
  intros Hsub Hinvoke. cbn [dispatchUpdates].
  unfold bind at 1. unfold gets at 1. rewrite Hsub.
  rewrite (bind_ok _ _ _ _ _ Hinvoke).
  destruct r as [e|]; [destruct (onCallbackError env)|]; reflexivity.
Qed.

End Session.

(** ** Runs in the small world *)

(** C1, against the claim as it is worded.  A message of three spaces is
    not a post and has no token; [routeMessage] returns nil for it, and the
    secondary handler has not been called. *)
Lemma no_token_secondary_not_called :
  message.GetMessage (Demo.direct Demo.blank) = tg.IsMessage Demo.blank
  /\ tg.Post Demo.blank = false
  /\ strings.Fields (tg.Text Demo.blank) = []
  /\ ~ ((routeMessage Demo.hs Demo.env 1%N Demo.ents (Demo.direct Demo.blank) Demo.st0).1
        = Ok None
        /\ exists ctx entities update m,
            In (Called SpamReactionMessageHandler ctx entities update m)
               (trace (routeMessage Demo.hs Demo.env 1%N Demo.ents
                                    (Demo.direct Demo.blank) Demo.st0).2)).
Proof.
  repeat split.
  intros [_ (ctx & entities & update & m & Hin)].
  vm_compute in Hin. destruct Hin as [Hin|[]]. discriminate Hin.
Qed.

(** C2, against the claim as it is worded.  The account is authorized and
    the confirmation message cannot be sent: [login] returns the error of
    the send, and [Run] ends with it (in the transport's wrapping), with no
    subscription made and the update that was waiting left unhandled. *)
Lemma send_failure_ends_Run :
  (Auth_Status Demo.env context.Background Demo.wFail).1
  = (Some (auth.mkStatus true), None)
  /\ (Self_Text Demo.env context.Background "Telegram client initialized" Demo.wFail).1
     = Some (errors.New "send failed")
  /\ (login Demo.env context.Background (initial Demo.hs Demo.wFail)).1
     = Ok (Some (errors.New "send failed"))
  /\ Run Demo.hs Demo.env [(1%N, Demo.ents, Demo.direct (Demo.incoming "!ping"))] None
         (initial Demo.hs Demo.wFail)
     = (Ok (Some (errors.Wrap (errors.New "send failed") "callback")),
        mkSt (MustNewTelegramPresentation Demo.hs) (Some (errors.New "send failed"))
             Demo.wFail []).
Proof. vm_compute. repeat split. Qed.

(** A post in a channel, handed to a fresh presentation. *)
Lemma routeMessage_channel_post_witness :
  tg.Post Demo.posted = true
  /\ routeMessage Demo.hs Demo.env 1%N Demo.ents (Demo.inChannel Demo.posted) Demo.st0
     = (Ok None, Demo.st0).
Proof.
  split; [reflexivity|].
  apply (routeMessage_channel_post Demo.hs Demo.env 1%N Demo.ents
           (Demo.inChannel Demo.posted) Demo.posted Demo.st0); reflexivity.
Defined.

(** A message of white space only. *)
Lemma routeMessage_no_token_witness :
  strings.Fields (tg.Text Demo.blank) = []
  /\ routeMessage Demo.hs Demo.env 1%N Demo.ents (Demo.direct Demo.blank) Demo.st0
     = (Ok None,
        mkSt (self Demo.st0) None Demo.w0 [messageGot Demo.blank]).
Proof.
  split; [reflexivity|].
  apply (routeMessage_no_token Demo.hs Demo.env 1%N Demo.ents
           (Demo.direct Demo.blank) Demo.blank Demo.st0); reflexivity.
Defined.

(** A message of the account's own, on which the secondary handler of the
    small world fails. *)
Lemma secondary_handler_first_witness :
  strings.Fields (tg.Text Demo.own) <> []
  /\ Demo.react 1%N Demo.ents (Demo.direct Demo.own) Demo.own Demo.w0
     = (Ok (Some (errors.New "reaction failed")), Demo.w0)
  /\ routeMessage Demo.hs Demo.env 1%N Demo.ents (Demo.direct Demo.own) Demo.st0
     = (Ok (Some (errors.New "reaction failed")),
        afterSecondary 1%N Demo.ents (Demo.direct Demo.own) Demo.own Demo.st0 Demo.w0).
Proof.
  assert (Hfields : strings.Fields (tg.Text Demo.own) <> []) by discriminate.
  split; [exact Hfields|]. split; [reflexivity|].
  apply (secondary_handler_first Demo.hs Demo.env 1%N Demo.ents
           (Demo.direct Demo.own) Demo.own Demo.st0
           (Ok (Some (errors.New "reaction failed"))) Demo.w0
           eq_refl eq_refl Hfields eq_refl).
  reflexivity.
Defined.

(** [!ping now]: the handler of [ping] answers and the run takes six ticks
    of the clock. *)
Lemma known_command_dispatch_witness :
  strings.Fields (tg.Text (Demo.incoming "!ping now")) = ["!ping"; "now"]
  /\ commandHandler (self Demo.st0) !! "ping" = Some (Demo.reply "pong" 5)
  /\ routeMessage Demo.hs Demo.env 1%N Demo.ents
                  (Demo.direct (Demo.incoming "!ping now")) Demo.st0
     = (Ok None,
        mkSt (self Demo.st0) None (Demo.mkWorld 1008 true false ["pong"])
             [messageGot (Demo.incoming "!ping now");
              Called SpamReactionMessageHandler 1%N Demo.ents
                     (Demo.direct (Demo.incoming "!ping now")) (Demo.incoming "!ping now");
              commandGot "ping";
              Called (CommandHandler "ping") 1%N Demo.ents
                     (Demo.direct (Demo.incoming "!ping now")) (Demo.incoming "!ping now");
              commandOk 6]).
Proof.
  split; [reflexivity|]. split; [reflexivity|].
  exact (proj1 (known_command_dispatch Demo.hs Demo.env 1%N Demo.ents
                  (Demo.direct (Demo.incoming "!ping now")) (Demo.incoming "!ping now")
                  Demo.st0 "ping" ["now"] (Demo.reply "pong" 5)
                  (Demo.mkWorld 1001 true false [])
                  eq_refl eq_refl eq_refl eq_refl eq_refl)).
Defined.

(** [!nope now]: no such command. *)
Lemma unknown_command_warns_witness :
  strings.Fields (tg.Text (Demo.incoming "!nope now")) = ["!nope"; "now"]
  /\ commandHandler (self Demo.st0) !! "nope" = None
  /\ routeMessage Demo.hs Demo.env 1%N Demo.ents
                  (Demo.direct (Demo.incoming "!nope now")) Demo.st0
     = (Ok None,
        mkSt (self Demo.st0) None (Demo.mkWorld 1001 true false [])
             [messageGot (Demo.incoming "!nope now");
              Called SpamReactionMessageHandler 1%N Demo.ents
                     (Demo.direct (Demo.incoming "!nope now")) (Demo.incoming "!nope now");
              unknownCommand "nope" "!nope now"]).
Proof.
  split; [reflexivity|]. split; [reflexivity|].
  exact (unknown_command_warns Demo.hs Demo.env 1%N Demo.ents
           (Demo.direct (Demo.incoming "!nope now")) (Demo.incoming "!nope now")
           Demo.st0 "nope" ["now"] (Demo.mkWorld 1001 true false [])
           eq_refl eq_refl eq_refl eq_refl eq_refl).
Defined.

(** [hello world]: plain chat. *)
Lemma plain_chat_dropped_witness :
  strings.Fields (tg.Text (Demo.incoming "hello world")) = ["hello"; "world"]
  /\ (forall tail, "hello" <> String commandPrefix tail)
  /\ routeMessage Demo.hs Demo.env 1%N Demo.ents
                  (Demo.direct (Demo.incoming "hello world")) Demo.st0
     = (Ok None,
        mkSt (self Demo.st0) None (Demo.mkWorld 1001 true false [])
             [messageGot (Demo.incoming "hello world");
              Called SpamReactionMessageHandler 1%N Demo.ents
                     (Demo.direct (Demo.incoming "hello world"))
                     (Demo.incoming "hello world")]).
Proof.
  assert (Hfirst : forall tail, "hello" <> String commandPrefix tail) by discriminate.
  split; [reflexivity|]. split; [exact Hfirst|].
  exact (proj1 (plain_chat_dropped Demo.hs Demo.env 1%N Demo.ents
                  (Demo.direct (Demo.incoming "hello world")) (Demo.incoming "hello world")
                  Demo.st0 "hello" ["world"] (Demo.mkWorld 1001 true false [])
                  eq_refl eq_refl eq_refl Hfirst eq_refl)).
Defined.

(** [! ping]: the prefix alone is the first token. *)
Lemma bare_prefix_is_unknown_command_witness :
  strings.Fields (tg.Text (Demo.incoming "! ping")) = ["!"; "ping"]
  /\ routeMessage Demo.hs Demo.env 1%N Demo.ents
                  (Demo.direct (Demo.incoming "! ping")) Demo.st0
     = (Ok None,
        mkSt (self Demo.st0) None (Demo.mkWorld 1001 true false [])
             [messageGot (Demo.incoming "! ping");
              Called SpamReactionMessageHandler 1%N Demo.ents
                     (Demo.direct (Demo.incoming "! ping")) (Demo.incoming "! ping");
              unknownCommand "" "! ping"]).
Proof.
  split; [reflexivity|].
  exact (proj2 (proj2
           (bare_prefix_is_unknown_command Demo.hs Demo.env 1%N Demo.ents
              (Demo.direct (Demo.incoming "! ping")) (Demo.incoming "! ping")
              Demo.st0 ["ping"] (Demo.mkWorld 1001 true false [])
              eq_refl eq_refl eq_refl eq_refl eq_refl))).
Defined.

(** An account that has to authorize, in a world where sending fails. *)
Lemma login_returns_send_error_witness :
  Auth_Status Demo.env context.Background Demo.wNew
  = ((Some (auth.mkStatus false), None), Demo.wNew)
  /\ Auth_IfNecessary Demo.env context.Background loginFlow Demo.wNew = (None, Demo.wFail)
  /\ Self_Text Demo.env context.Background "Telegram client initialized" Demo.wFail
     = (Some (errors.New "send failed"), Demo.wFail)
  /\ login Demo.env context.Background (initial Demo.hs Demo.wNew)
     = (Ok (Some (errors.New "send failed")),
        mkSt (MustNewTelegramPresentation Demo.hs) None Demo.wFail [authorizing])
  /\ Run Demo.hs Demo.env [(1%N, Demo.ents, Demo.direct (Demo.incoming "!ping"))] None
         (initial Demo.hs Demo.wNew)
     = (Ok (Some (errors.Wrap (errors.New "send failed") "callback")),
        mkSt (MustNewTelegramPresentation Demo.hs) (Some (errors.New "send failed"))
             Demo.wFail [authorizing]).
Proof.
  split; [reflexivity|]. split; [reflexivity|]. split; [reflexivity|].
  destruct (login_returns_send_error Demo.hs Demo.env context.Background
              (initial Demo.hs Demo.wNew) (auth.mkStatus false) None
              Demo.wNew Demo.wFail [authorizing] (errors.New "send failed") Demo.wFail
              [(1%N, Demo.ents, Demo.direct (Demo.incoming "!ping"))] None
              eq_refl
              (or_intror (conj eq_refl (conj eq_refl eq_refl)))
              eq_refl) as [Hlogin HRun].
  split; [exact Hlogin|exact (HRun eq_refl)].
Defined.

(** The table after a session that handled [!ping]. *)
Lemma command_table_fixed_witness :
  reachable Demo.hs Demo.env
            (Run Demo.hs Demo.env [(1%N, Demo.ents, Demo.direct (Demo.incoming "!ping"))] None
                 Demo.st0).2
  /\ commandHandler
       (self (Run Demo.hs Demo.env
                  [(1%N, Demo.ents, Demo.direct (Demo.incoming "!ping"))] None Demo.st0).2)
     = commandHandler (MustNewTelegramPresentation Demo.hs).
Proof.
  assert (Hreach : reachable Demo.hs Demo.env
            (Run Demo.hs Demo.env [(1%N, Demo.ents, Demo.direct (Demo.incoming "!ping"))] None
                 Demo.st0).2).
  { apply reach_Run. apply reach_initial. }
  split; [exact Hreach|].
  exact (proj2 (proj2 (proj2 (proj2 (command_table_fixed Demo.hs Demo.env)))) _ Hreach).
Defined.

(** A session of the small world: after login the two subscriptions are in
    place, a command and a failing command are handled in turn, and the
    error of the second is logged by its callback. *)
Example demo_session :
  Run Demo.hs Demo.env
      [(1%N, Demo.ents, Demo.direct (Demo.incoming "!getMe"));
       (2%N, Demo.ents, Demo.inChannel (Demo.incoming "!ping"))] None Demo.st0
  = (Ok None,
     mkSt (mkPresentation
             (commandHandler (MustNewTelegramPresentation Demo.hs))
             {[ tg.UpdateNewChannelMessageTypeID := onNewChannelMessageFunc;
                tg.UpdateNewMessageTypeID := onNewMessageFunc ]})
          None
          (Demo.mkWorld 1010 true false ["Telegram client initialized"; "pong"])
          [messageGot (Demo.incoming "!getMe");
           Called SpamReactionMessageHandler 1%N Demo.ents
                  (Demo.direct (Demo.incoming "!getMe")) (Demo.incoming "!getMe");
           commandGot "getMe";
           Called (CommandHandler "getMe") 1%N Demo.ents
                  (Demo.direct (Demo.incoming "!getMe")) (Demo.incoming "!getMe");
           requestFailed (errors.New "getMe failed");
           messageGot (Demo.incoming "!ping");
           Called SpamReactionMessageHandler 2%N Demo.ents
                  (Demo.inChannel (Demo.incoming "!ping")) (Demo.incoming "!ping");
           commandGot "ping";
           Called (CommandHandler "ping") 2%N Demo.ents
                  (Demo.inChannel (Demo.incoming "!ping")) (Demo.incoming "!ping");
           commandOk 6]).
Proof. vm_compute. reflexivity. Qed.

(** Two callbacks that overlap.  The first has assigned the error of
    [!getMe] to [err]; before it tests [err], the second assigns the nil of
    a plain message.  The first then finds nil: it logs nothing and returns
    nil, so the error is lost. *)
Example overlapping_callbacks_lose_error :
  (run callbackAssign Demo.hs Demo.env 1%N Demo.ents (Demo.direct (Demo.incoming "!getMe"));
   run callbackAssign Demo.hs Demo.env 2%N Demo.ents (Demo.inChannel (Demo.incoming "hello"));
   run callbackReport;
   callbackReturn) Demo.st0
  = (Ok None,
     mkSt (self Demo.st0) None (Demo.mkWorld 1003 true false [])
          [messageGot (Demo.incoming "!getMe");
           Called SpamReactionMessageHandler 1%N Demo.ents
                  (Demo.direct (Demo.incoming "!getMe")) (Demo.incoming "!getMe");
           commandGot "getMe";
           Called (CommandHandler "getMe") 1%N Demo.ents
                  (Demo.direct (Demo.incoming "!getMe")) (Demo.incoming "!getMe");
           messageGot (Demo.incoming "hello");
           Called SpamReactionMessageHandler 2%N Demo.ents
                  (Demo.inChannel (Demo.incoming "hello")) (Demo.incoming "hello")]).
Proof. vm_compute. reflexivity. Qed.

(** ** More on [routeMessage] *)

Lemma stepsSince_app {World : Type} (st : St World) r e w (added : list Step) :
  stepsSince st (mkSt r e w (trace st ++ added)) = added.
Proof. unfold stepsSince. cbn [trace]. apply drop_app_length. Qed.

Lemma stepsSince_same {World : Type} (st : St World) : stepsSince st st = [].
Proof. unfold stepsSince. apply drop_all. Qed.

Section RouteMessageMore.
Context {World : Type}.
Variable hs : Handlers World.
Variable env : Outside World.

Implicit Types (ctx : context.Context) (entities : tg.Entities)
         (update : message.AnswerableMessageUpdate) (m : tg.Message)
         (st : St World).


(** The steps of a run, once its last state is known by cases. *)
Ltac steps_of_run :=
  cbn [snd]; unfold afterSecondary; cbn [trace];
  rewrite <- ?app_assoc; rewrite ?stepsSince_app, ?stepsSince_same; cbn [app].

Ltac split_run :=
  repeat match goal with
         | |- context [match ?x with _ => _ end] => destruct x eqn:?
         end.

(** X2. The secondary handler is called once for a message that is not a
    post and has a token, and for nothing else: not for an update without
    a message, a post or a text without token.  This holds whatever the
    handlers return, a panic included. *)
Theorem secondary_called_iff_qualifying ctx entities update st :
  List.filter isSpamReactionCall
              (stepsSince st (routeMessage hs env ctx entities update st).2)
  = match message.GetMessage update with
    | tg.IsMessage m =>
        if tg.Post m then []
        else if (length (strings.Fields (tg.Text m)) =? 0)%nat then []
             else [Called SpamReactionMessageHandler ctx entities update m]
    | _ => []
    end.
Proof.
  destruct (message.GetMessage update) as [id|m|id] eqn:Hmsg;
    try (unfold routeMessage; rewrite Hmsg; steps_of_run; reflexivity).
  destruct (tg.Post m) eqn:Hpost.
  { unfold routeMessage. rewrite Hmsg, Hpost. steps_of_run. reflexivity. }
  destruct (strings.Fields (tg.Text m)) as [|first rest] eqn:Hfields.
  { route_unfold. rewrite Hmsg, Hpost, Hfields. cbn [length Nat.eqb]. unfold bind.
    steps_of_run. reflexivity. }
  destruct (spamReactionMessageHandler hs ctx entities update m (world st))
    as [res w1] eqn:Hspam.
  rewrite (routeMessage_secondary hs env ctx entities update m st first rest res w1
             Hmsg Hpost Hfields Hspam).
  cbv zeta. cbn [length Nat.eqb].
  split_run; steps_of_run; reflexivity.
Qed.

(** X3. A run of [routeMessage] calls a command handler once at most.
    When it calls one, the message is not a post, its first token is [!]
    followed by a name of the command table, the handler is called under
    that name with the context, the entities, the update and the message,
    and the call comes after the call of the secondary handler and the
    [command.got] entry. *)
Theorem command_call_discipline ctx entities update st :
  let steps := stepsSince st (routeMessage hs env ctx entities update st).2 in
  List.filter isCommandCall steps = []
  \/ exists m (command : string) rest later,
      message.GetMessage update = tg.IsMessage m
      /\ tg.Post m = false
      /\ strings.Fields (tg.Text m) = String commandPrefix command :: rest
      /\ is_Some (commandHandler (self st) !! command)
      /\ steps = messageGot m
                   :: Called SpamReactionMessageHandler ctx entities update m
                   :: commandGot command
                   :: Called (CommandHandler command) ctx entities update m
                   :: later
      /\ List.filter isCommandCall later = [].
Proof.
  intros steps. subst steps.
  destruct (message.GetMessage update) as [id|m|id] eqn:Hmsg;
    try (left; unfold routeMessage; rewrite Hmsg; steps_of_run; reflexivity).
  destruct (tg.Post m) eqn:Hpost.
  { left. unfold routeMessage. rewrite Hmsg, Hpost. steps_of_run. reflexivity. }
  destruct (strings.Fields (tg.Text m)) as [|first rest] eqn:Hfields.
  { left. route_unfold. rewrite Hmsg, Hpost, Hfields. cbn [length Nat.eqb].
    unfold bind. steps_of_run. reflexivity. }
  destruct (spamReactionMessageHandler hs ctx entities update m (world st))
    as [res w1] eqn:Hspam.
  rewrite (routeMessage_secondary hs env ctx entities update m st first rest res w1
             Hmsg Hpost Hfields Hspam).
  cbv zeta.
  destruct res as [[e|]|why]; try (left; steps_of_run; reflexivity).
  destruct first as [|c0 tail];
    cbn [String.length Nat.ltb Nat.leb gostring.index String.get gostring.slice_from];
    [left; steps_of_run; reflexivity|].
  destruct (Ascii.eqb c0 commandPrefix) eqn:Hc0; cbn [negb];
    [|left; steps_of_run; reflexivity].
  apply Ascii.eqb_eq in Hc0. subst c0.
  destruct (commandHandler (self st) !! tail) as [handler|] eqn:Hlookup;
    [|left; steps_of_run; reflexivity].
  right. exists m, tail, rest.
  destruct (handler ctx entities update m (Now env w1).2) as [[[e|]|why] w3];
    steps_of_run;
    (eexists; split; [reflexivity|]; split; [exact Hpost|]; split; [exact Hfields|];
     split; [exists handler; exact Hlookup|]; split; reflexivity).
Qed.

(** The names of the table built at construction, read as first tokens. *)
Lemma built_lookup_tokens (name : string) :
  is_Some (commandHandler (MustNewTelegramPresentation hs) !! name)
  <-> In (String commandPrefix name) commandTokens.
Proof.
  rewrite <- elem_of_dom.
  unfold MustNewTelegramPresentation. cbn [commandHandler].
  rewrite !dom_insert_L, ?dom_singleton_L.
  unfold commandTokens, commandPrefix. cbn [In].
  rewrite !elem_of_union, !elem_of_singleton.
  split.
  - intros [-> | [-> | [-> | ->]]]; tauto.
  - intros [H|[H|[H|[H|[]]]]]; injection H as <-; tauto.
Qed.

(** X4. In a presentation with the table built at construction, and once
    the secondary handler has returned nil, a command handler is called if
    and only if the first token is one of [!ping], [!help], [!getMe] and
    [!spamReaction], letter for letter: another case, a longer or a shorter
    name, or a missing [!] calls none. *)
Theorem command_called_iff_registered ctx entities update m st first rest w1 :
  message.GetMessage update = tg.IsMessage m ->
  tg.Post m = false ->
  strings.Fields (tg.Text m) = first :: rest ->
  commandHandler (self st) = commandHandler (MustNewTelegramPresentation hs) ->
  spamReactionMessageHandler hs ctx entities update m (world st) = (Ok None, w1) ->
  List.filter isCommandCall
              (stepsSince st (routeMessage hs env ctx entities update st).2) <> []
  <-> In first commandTokens.
Proof.
  intros Hmsg Hpost Hfields Htable Hspam.
  rewrite (routeMessage_secondary hs env ctx entities update m st first rest _ w1
             Hmsg Hpost Hfields Hspam).
  cbv zeta.
  destruct first as [|c0 tail];
    cbn [String.length Nat.ltb Nat.leb gostring.index String.get gostring.slice_from].
  { steps_of_run. cbn. split; [congruence|].
    unfold commandTokens. cbn [In]. intros [H|[H|[H|[H|[]]]]]; discriminate H. }
  destruct (Ascii.eqb c0 commandPrefix) eqn:Hc0; cbn [negb].
  - apply Ascii.eqb_eq in Hc0. subst c0.
    rewrite <- built_lookup_tokens, <- Htable.
    destruct (commandHandler (self st) !! tail) as [handler|] eqn:Hlookup.
    + destruct (handler ctx entities update m (Now env w1).2) as [[[e|]|why] w3];
        steps_of_run; cbn; (split; [eauto|discriminate]).
    + steps_of_run. cbn. split; [congruence|]. intros [h Hh]. discriminate Hh.
  - steps_of_run. cbn. split; [congruence|].
    unfold commandTokens, commandPrefix in *. cbn [In].
    intros [H|[H|[H|[H|[]]]]]; injection H as <- _; discriminate Hc0.
Qed.

End RouteMessageMore.


Lemma Demo_react_returns : handlerReturns Demo.react.
Proof.
  intros ctx entities update m w. unfold Demo.react.
  destruct (tg.Out m); eexists; reflexivity.
Qed.

Lemma Demo_table_returns (name : string) (h : commandProcessor Demo.World) :
  commandHandler (self Demo.st0) !! name = Some h -> handlerReturns h.
Proof.
  cbn [Demo.st0 initial self MustNewTelegramPresentation commandHandler
       Demo.hs pingCommandHandler helpCommandHandler getMeCommandHandler
       spamReactionCommandHandler].
  intros Hlookup.
  repeat (apply lookup_insert_Some in Hlookup as [[_ <-]|[_ Hlookup]];
          [intros ctx entities update m w; eexists; reflexivity|]).
  apply lookup_singleton_Some in Hlookup as [_ <-].
  intros ctx entities update m w. eexists. reflexivity.
Qed.

(** In the small world every handler returns, and so does the router. *)
Lemma routeMessage_returns_witness :
  handlerReturns (spamReactionMessageHandler Demo.hs)
  /\ exists r st',
      routeMessage Demo.hs Demo.env 1%N Demo.ents
                   (Demo.direct (Demo.incoming "!getMe")) Demo.st0 = (Ok r, st').
Proof.
  split; [exact Demo_react_returns|].
  exact (routeMessage_returns Demo.hs Demo.env 1%N Demo.ents
           (Demo.direct (Demo.incoming "!getMe")) Demo.st0
           Demo_react_returns Demo_table_returns).
Defined.

(** [!getMe] is a command; its handler is called, even though it fails. *)
Lemma command_called_iff_registered_witness :
  strings.Fields (tg.Text (Demo.incoming "!getMe")) = ["!getMe"]
  /\ In "!getMe" commandTokens
  /\ List.filter isCommandCall
                 (stepsSince Demo.st0
                    (routeMessage Demo.hs Demo.env 1%N Demo.ents
                                  (Demo.direct (Demo.incoming "!getMe")) Demo.st0).2)
     <> [].
Proof.
  assert (Hin : In "!getMe" commandTokens) by (cbn; tauto).
  split; [reflexivity|]. split; [exact Hin|].
  exact (proj2 (command_called_iff_registered Demo.hs Demo.env 1%N Demo.ents
                  (Demo.direct (Demo.incoming "!getMe")) (Demo.incoming "!getMe")
                  Demo.st0 "!getMe" [] (Demo.mkWorld 1001 true false [])
                  eq_refl eq_refl eq_refl eq_refl eq_refl) Hin).
Defined.

(** ** More on the subscription callbacks *)

Section CallbackMore.
Context {World : Type}.
Variable hs : Handlers World.
Variable env : Outside World.


(** X7. The variable [err] is one for the two closures and for all their
    calls.  If, after a callback has assigned its result, another
    callback's assignment comes before the first one's test, the first
    callback logs and returns the other's result: its own result, an error
    included, is neither logged nor returned. *)
Theorem shared_err_latest_assignment ctxA entA updA ctxB entB updB
        (st stA stB : St World) rA rB :
  routeMessage hs env ctxA entA updA st = (Ok rA, stA) ->
  routeMessage hs env ctxB entB updB (mkSt (self stA) rA (world stA) (trace stA))
  = (Ok rB, stB) ->
  (run callbackAssign hs env ctxA entA updA;
   run callbackAssign hs env ctxB entB updB;
   run callbackReport;
   callbackReturn) st
  = (Ok rB, mkSt (self stB) rB (world stB) (trace stB ++ reported rB)%list).
Proof.
  intros HA HB. unfold callbackAssign.
  unfold bind at 1. unfold bind at 1. rewrite HA. unfold set_err at 1.
  unfold bind at 1. unfold bind at 1. rewrite HB. unfold set_err at 1.
  destruct rB as [e|]; cbn [reported]; rewrite ?app_nil_r; reflexivity.
Qed.

End CallbackMore.


(** The callback of [!getMe] overtaken by the callback of a plain message. *)
Lemma shared_err_latest_assignment_witness :
  routeMessage Demo.hs Demo.env 1%N Demo.ents
               (Demo.direct (Demo.incoming "!getMe")) Demo.st0
  = (Ok (Some (errors.New "getMe failed")), Cases.afterGetMe)
  /\ ((run callbackAssign Demo.hs Demo.env 1%N Demo.ents
                          (Demo.direct (Demo.incoming "!getMe"));
       run callbackAssign Demo.hs Demo.env 2%N Demo.ents
                          (Demo.inChannel (Demo.incoming "hello"));
       run callbackReport;
       callbackReturn) Demo.st0).1 = Ok None.
Proof.
  assert (HA : routeMessage Demo.hs Demo.env 1%N Demo.ents
                            (Demo.direct (Demo.incoming "!getMe")) Demo.st0
               = (Ok (Some (errors.New "getMe failed")), Cases.afterGetMe))
    by (vm_compute; reflexivity).
  split; [exact HA|].
  rewrite (shared_err_latest_assignment Demo.hs Demo.env
             1%N Demo.ents (Demo.direct (Demo.incoming "!getMe"))
             2%N Demo.ents (Demo.inChannel (Demo.incoming "hello"))
             Demo.st0 Cases.afterGetMe _ (Some (errors.New "getMe failed")) None
             HA (surjective_pairing _)).
  reflexivity.
Defined.

(** ** More on [login] and [Run] *)

Section SessionMore.
Context {World : Type}.
Variable hs : Handlers World.
Variable env : Outside World.

(** X8. [login] reads [status.Authorized] before it looks at the error
    that came with the status.  When [Status] hands back no status (a nil
    pointer, as it does with an error), [login] panics on the spot: the
    error is never examined, no flow is run and no confirmation is sent;
    [Run] panics with it and makes no subscription. *)
Theorem login_nil_status_panics ctx (st : St World) err0 w1 inbox ended :
  Auth_Status env ctx (world st) = ((None, err0), w1) ->
  login env ctx st
  = (Panic "invalid memory address or nil pointer dereference",
     mkSt (self st) (Run_err st) w1 (trace st))
  /\ (ctx = context.Background ->
      Run hs env inbox ended st
      = (Panic "invalid memory address or nil pointer dereference",
         mkSt (self st) (Run_err st) w1 (trace st))).
Proof.
  intros Hstatus.
  assert (Hlogin : login env ctx st
                   = (Panic "invalid memory address or nil pointer dereference",
                      mkSt (self st) (Run_err st) w1 (trace st))).
  { unfold login, bind, outside, panic. rewrite Hstatus. reflexivity. }
  split; [exact Hlogin|].
  intros ->. unfold Run, waiter_Run, telegramClient_Run.
  unfold bind at 1. rewrite (bind_panic _ _ _ _ _ Hlogin). reflexivity.
Qed.

(** X9. An error of authentication, whether it came with the status of an
    account already authorized or from the flow, is returned joined with
    [error while authenticating], and the confirmation message is not
    sent: the world is left as the status query or the flow left it. *)
Theorem login_wraps_auth_error ctx (st : St World) status err0 w1 w2 steps e :
  Auth_Status env ctx (world st) = ((Some status, err0), w1) ->
  (auth.Authorized status = true /\ err0 = Some e /\ w2 = w1 /\ steps = [])
  \/ (auth.Authorized status = false
      /\ Auth_IfNecessary env ctx loginFlow w1 = (Some e, w2)
      /\ steps = [authorizing]) ->
  login env ctx st
  = (Ok (Some (joinError [e; errorString "error while authenticating"])),
     mkSt (self st) (Run_err st) w2 (trace st ++ steps)%list).
Proof.
  intros Hstatus Hflow.
  unfold login, bind, outside, log, emit, ret. rewrite Hstatus.
  destruct Hflow as [(Hauth & -> & -> & ->)|(Hauth & Hflow & ->)];
    rewrite Hauth; cbn [negb world self Run_err trace].
  - rewrite app_nil_r. reflexivity.
  - fold loginFlow. rewrite Hflow. reflexivity.
Qed.

(** X10. Whatever [login] ends with (nil, an error or a panic), it
    changes neither the presentation nor [err].  It returns nil only when
    the confirmation message has been sent without error: the world it
    leaves is the one a successful [Self().Text] of
    [Telegram client initialized] left. *)
Theorem login_nil_means_confirmed ctx (st : St World) :
  self (login env ctx st).2 = self st
  /\ Run_err (login env ctx st).2 = Run_err st
  /\ (forall st',
        login env ctx st = (Ok None, st') ->
        exists w2,
          Self_Text env ctx "Telegram client initialized" w2 = (None, world st')).
Proof.
  unfold login, bind, outside, log, emit, ret, panic.
  destruct (Auth_Status env ctx (world st)) as [[[status|] err0] w1];
    [|cbn; repeat split; discriminate].
  destruct (auth.Authorized status); cbn.
  - destruct err0 as [e|]; cbn; [repeat split; discriminate|].
    destruct (Self_Text env ctx "Telegram client initialized" w1) as [[e|] w3] eqn:Hsend;
      cbn; repeat split; try discriminate.
    intros st' [= <-]. cbn. eauto.
  - fold loginFlow.
    destruct (Auth_IfNecessary env ctx loginFlow w1) as [[e|] w2];
      cbn; [repeat split; discriminate|].
    destruct (Self_Text env ctx "Telegram client initialized" w2) as [[e|] w3] eqn:Hsend;
      cbn; repeat split; try discriminate.
    intros st' [= <-]. cbn. eauto.
Qed.

End SessionMore.

(** ** The subscriptions of a session *)

Section Subscriptions.
Context {World : Type}.
Variable hs : Handlers World.
Variable env : Outside World.

Lemma self_ret {A} (a : A) : keepsSelf (ret a : M World A).
Proof. intros st. reflexivity. Qed.

Lemma self_panic {A} why : keepsSelf (panic why : M World A).
Proof. intros st. reflexivity. Qed.

Lemma self_gets {A} (f : St World -> A) : keepsSelf (gets f).
Proof. intros st. reflexivity. Qed.

Lemma self_log lvl fs : keepsSelf (log lvl fs : M World unit).
Proof. intros st. reflexivity. Qed.

Lemma self_set_err e : keepsSelf (set_err e : M World unit).
Proof. intros st. reflexivity. Qed.

Lemma self_outside {A} (f : World -> A * World) : keepsSelf (outside f).
Proof. intros st. unfold outside. destruct (f (world st)). reflexivity. Qed.

Lemma self_call callee (h : commandProcessor World) ctx entities update m :
  keepsSelf (call callee h ctx entities update m).
Proof.
  intros st. unfold call.
  destruct (h ctx entities update m (world st)). reflexivity.
Qed.

Lemma self_bind {A B} (c : M World A) (k : A -> M World B) :
  keepsSelf c -> (forall a, keepsSelf (k a)) -> keepsSelf (bind c k).
Proof.
  intros Hc Hk st. unfold bind. specialize (Hc st).
  destruct (c st) as [[a|why] st1]; cbn [snd] in *.
  - rewrite Hk. exact Hc.
  - exact Hc.
Qed.

Lemma self_bind_tail {A B} (c : M World A) (k : A -> M World B) st :
  (forall a, keepsSelf (k a)) -> self (bind c k st).2 = self (c st).2.
Proof.
  intros Hk. unfold bind.
  destruct (c st) as [[a|why] st1]; cbn [snd]; [apply Hk|reflexivity].
Qed.

Ltac keeps_self :=
  repeat first
    [ apply self_ret | apply self_panic | apply self_gets | apply self_log
    | apply self_set_err | apply self_outside | apply self_call
    | apply self_bind; [|intros ?]
    | progress cbv zeta
    | match goal with
      | |- keepsSelf (match ?x with _ => _ end) => destruct x
      end ].

Lemma routeMessage_keepsSelf ctx entities update :
  keepsSelf (routeMessage hs env ctx entities update).
Proof. unfold routeMessage. keeps_self. Qed.

Lemma login_keepsSelf ctx : keepsSelf (login env ctx).
Proof. unfold login. keeps_self. Qed.

Lemma subscriptionCallback_keepsSelf ctx entities update :
  keepsSelf (subscriptionCallback hs env ctx entities update).
Proof.
  unfold subscriptionCallback, callbackAssign, callbackReport, callbackReturn.
  apply self_bind; [|intros ?; keeps_self].
  apply self_bind; [apply routeMessage_keepsSelf|intros ?]. keeps_self.
Qed.

Lemma dispatchUpdates_keepsSelf inbox : keepsSelf (dispatchUpdates hs env inbox).
Proof.
  induction inbox as [|[[ctx entities] update] rest IH]; cbn [dispatchUpdates].
  - apply self_ret.
  - apply self_bind; [apply self_gets|intros handlers].
    destruct (handlers !! message.TypeID update) as [f|]; [|exact IH].
    apply self_bind.
    + destruct f; apply subscriptionCallback_keepsSelf.
    + intros [e|]; [destruct (onCallbackError env)|]; first [exact IH | apply self_ret].
Qed.

(** X12. Once [login] has returned nil, [Run] subscribes the router to
    new channel messages and to new messages before any update is
    handled, and nothing that follows (the callbacks, the handlers, the end
    of the session, a panic) takes a subscription away or touches the
    command table.  From then on an update of either kind finds its
    callback. *)
Theorem Run_subscribes_both inbox ended (st st1 : St World) :
  login env context.Background st = (Ok None, st1) ->
  let subscribed :=
    <[tg.UpdateNewMessageTypeID := onNewMessageFunc]>
      (<[tg.UpdateNewChannelMessageTypeID := onNewChannelMessageFunc]>
         (telegramDispatcher (self st))) in
  self (Run hs env inbox ended st).2
  = mkPresentation (commandHandler (self st)) subscribed
  /\ forall update, is_Some (subscribed !! message.TypeID update).
Proof.
  intros Hlogin subscribed. split.
  - pose proof (login_keepsSelf context.Background st) as Hself.
    rewrite Hlogin in Hself. cbn [snd] in Hself.
    unfold Run, waiter_Run, telegramClient_Run.
    rewrite self_bind_tail by (intros [e|]; apply self_ret).
    rewrite (bind_ok _ _ _ _ _ Hlogin).
    unfold bind at 1. unfold set_err at 1.
    unfold bind at 1. unfold gets at 1. cbn [Run_err].
    unfold bind at 1. unfold subscribe at 1.
    unfold bind at 1. unfold subscribe at 1.
    cbn [self world trace Run_err commandHandler telegramDispatcher].
    match goal with
    | |- self (bind ?c ?k ?s).2 = _ =>
        assert (Hrest : keepsSelf (bind c k))
    end.
    { apply self_bind.
      - unfold RunUntilCanceled.
        apply self_bind; [apply dispatchUpdates_keepsSelf|intros ?]. keeps_self.
      - intros ?. keeps_self. }
    rewrite Hrest. cbn [self]. rewrite Hself. reflexivity.
  - intros [msg pts count|msg pts count]; cbn [message.TypeID]; subst subscribed.
    + rewrite lookup_insert_eq. eauto.
    + rewrite lookup_insert_ne by discriminate. rewrite lookup_insert_eq. eauto.
Qed.

(** X11. [Run] goes on only after [login] has returned nil.  When
    [login] returns an error, whatever its kind, [Run] ends with that error
    in the wrapping of the transport's [Run] ([callback: ...]); when
    [login] panics, so does [Run].  Either way the world and the trace are
    as [login] left them and the presentation is as it was before [Run]:
    no subscription is made and no update is handled. *)
Theorem Run_stops_without_login inbox ended (st st1 : St World) res :
  login env context.Background st = (res, st1) ->
  res <> Ok None ->
  (Run hs env inbox ended st).1
  = match res with
    | Ok (Some e) => Ok (Some (errors.Wrap e "callback"))
    | _ => res
    end
  /\ self (Run hs env inbox ended st).2 = self st
  /\ world (Run hs env inbox ended st).2 = world st1
  /\ trace (Run hs env inbox ended st).2 = trace st1.
Proof.
  intros Hlogin Hres.
  pose proof (login_keepsSelf context.Background st) as Hself.
  rewrite Hlogin in Hself. cbn [snd] in Hself.
  destruct res as [[e|]|why]; [| congruence |].
  - rewrite (Run_login_error hs env inbox ended st st1 e Hlogin). cbn. auto.
  - rewrite (Run_login_panic hs env inbox ended st st1 why Hlogin). cbn. auto.
Qed.

End Subscriptions.

(** A transport that has lost its connection gives no status. *)
Lemma login_nil_status_panics_witness :
  Auth_Status Cases.envDown context.Background (world Demo.st0)
  = ((None, Some (errors.New "connection lost")), Demo.w0)
  /\ login Cases.envDown context.Background Demo.st0
     = (Panic "invalid memory address or nil pointer dereference", Demo.st0)
  /\ Run Demo.hs Cases.envDown Cases.oneUpdate None Demo.st0
     = (Panic "invalid memory address or nil pointer dereference", Demo.st0).
Proof.
  split; [reflexivity|].
  destruct (login_nil_status_panics Demo.hs Cases.envDown context.Background Demo.st0
              (Some (errors.New "connection lost")) Demo.w0 Cases.oneUpdate None
              eq_refl) as [Hlogin HRun].
  split; [exact Hlogin|exact (HRun eq_refl)].
Defined.

(** An account that has to authorize and whose code is refused. *)
Lemma login_wraps_auth_error_witness :
  Auth_IfNecessary Cases.envRefused context.Background loginFlow Demo.wNew
  = (Some (errors.New "code refused"), Demo.wNew)
  /\ login Cases.envRefused context.Background (initial Demo.hs Demo.wNew)
     = (Ok (Some Cases.refused),
        mkSt (MustNewTelegramPresentation Demo.hs) None Demo.wNew [authorizing]).
Proof.
  split; [reflexivity|].
  exact (login_wraps_auth_error Cases.envRefused context.Background
           (initial Demo.hs Demo.wNew) (auth.mkStatus false) None
           Demo.wNew Demo.wNew [authorizing] (errors.New "code refused")
           eq_refl (or_intror (conj eq_refl (conj eq_refl eq_refl)))).
Defined.

(** An authorized account in a world where sending works. *)
Lemma login_nil_means_confirmed_witness :
  login Demo.env context.Background Demo.st0 = (Ok None, Cases.loggedIn)
  /\ exists w2,
      Self_Text Demo.env context.Background "Telegram client initialized" w2
      = (None, world Cases.loggedIn).
Proof.
  assert (Hlogin : login Demo.env context.Background Demo.st0 = (Ok None, Cases.loggedIn))
    by reflexivity.
  split; [exact Hlogin|].
  exact (proj2 (proj2 (login_nil_means_confirmed Demo.env context.Background Demo.st0))
           Cases.loggedIn Hlogin).
Defined.

(** The refused code ends the session before its update is handled. *)
Lemma Run_stops_without_login_witness :
  login Cases.envRefused context.Background (initial Demo.hs Demo.wNew)
  = (Ok (Some Cases.refused),
     mkSt (MustNewTelegramPresentation Demo.hs) None Demo.wNew [authorizing])
  /\ Ok (Some Cases.refused) <> Ok None
  /\ (Run Demo.hs Cases.envRefused Cases.oneUpdate None (initial Demo.hs Demo.wNew)).1
     = Ok (Some (errors.Wrap Cases.refused "callback"))
  /\ self (Run Demo.hs Cases.envRefused Cases.oneUpdate None
               (initial Demo.hs Demo.wNew)).2
     = MustNewTelegramPresentation Demo.hs.
Proof.
  assert (Hlogin : login Cases.envRefused context.Background (initial Demo.hs Demo.wNew)
                   = (Ok (Some Cases.refused),
                      mkSt (MustNewTelegramPresentation Demo.hs) None Demo.wNew
                           [authorizing]))
    by reflexivity.
  assert (Hres : Ok (Some Cases.refused) <> @Ok (option error) None) by discriminate.
  split; [exact Hlogin|]. split; [exact Hres|].
  destruct (Run_stops_without_login Demo.hs Cases.envRefused Cases.oneUpdate None
              (initial Demo.hs Demo.wNew) _ (Ok (Some Cases.refused)) Hlogin Hres)
    as (Hout & Hself & _).
  split; [exact Hout|exact Hself].
Defined.

(** A session of one update: the two subscriptions are there at its end. *)
Lemma Run_subscribes_both_witness :
  login Demo.env context.Background Demo.st0 = (Ok None, Cases.loggedIn)
  /\ telegramDispatcher (self (Run Demo.hs Demo.env Cases.oneUpdate None Demo.st0).2)
     = {[ tg.UpdateNewChannelMessageTypeID := onNewChannelMessageFunc;
          tg.UpdateNewMessageTypeID := onNewMessageFunc ]}.
Proof.
  assert (Hlogin : login Demo.env context.Background Demo.st0 = (Ok None, Cases.loggedIn))
    by reflexivity.
  split; [exact Hlogin|].
  rewrite (proj1 (Run_subscribes_both Demo.hs Demo.env Cases.oneUpdate None
                    Demo.st0 Cases.loggedIn Hlogin)).
  vm_compute. reflexivity.
Defined.

(** ** Texts without a token *)

Lemma fieldsLoop_open (f : utf8.rune -> bool) (rs : list (utf8.rune * string))
      (t : string) :
  strings.fieldsLoop f rs (Some t) <> [].
Proof.
  revert t. induction rs as [|[r bytes] rs IH]; intros t; cbn [strings.fieldsLoop].
  - discriminate.
  - destruct (f r); [discriminate|apply IH].
Qed.

(** A text has no token exactly when each of the runes [range] reads in
    it is white space for [unicode.IsSpace] (the empty text included). *)
Theorem no_token_iff_blank (s : string) :
  strings.Fields s = []
  <-> Forall (fun chunk => unicode.IsSpace chunk.1 = true) (utf8.range s).
Proof.
  unfold strings.Fields, strings.FieldsFunc.
  induction (utf8.range s) as [|[r bytes] rs IH]; cbn [strings.fieldsLoop].
  - split; [constructor|reflexivity].
  - rewrite Forall_cons. cbn [fst]. destruct (unicode.IsSpace r).
    + rewrite IH. tauto.
    + split.
      * intros Hnil. destruct (fieldsLoop_open unicode.IsSpace rs bytes Hnil).
      * intros [Hspace _]. discriminate Hspace.
Qed.
